(** * IotPaymentFhe: the encrypted batch-payment ledger

    A shallow embedding of the Solidity contract [IotPaymentFhe]
    (contracts/IoT_Payment_FHE.sol): its storage, its modifiers, its nine
    external entry points and the decryption callback, followed by the
    properties of the batch life cycle and of the decryption protocol.

    Conventions.
    - [uint256], [address], [bytes32] and the [euint32] handle are integers
      ([Z]); Solidity 0.8 arithmetic is checked, so an addition that leaves
      the 256-bit range reverts with [Panic 0x11] instead of wrapping.
    - A Solidity [mapping] is a [gmap] read with the zero default.
    - A function body is a computation in the monad [M]: it threads the
      storage and the event log and may revert.  A transaction that reverts
      leaves the storage as it was ([transact]).
    - The FHE library, [keccak256], [abi.encode] and the decryption oracle
      are collaborators of the contract; they are the fields of the class
      [FHEVM], and the oracle's answer to [FHE.requestDecryption] is part of
      the environment of the call.  Their calls return; the library's own
      initialisation ([_initIfNeeded]) leaves the contract's storage alone
      and is not modelled. *)

From Stdlib Require Import ZArith Lia Bool Permutation.
From stdpp Require Import base option list gmap.

Local Open Scope Z_scope.

(** ** Value types *)

Abbreviation address := Z (only parsing).
Abbreviation uint256 := Z (only parsing).
Abbreviation bytes32 := Z (only parsing).
Abbreviation euint32 := Z (only parsing).
Abbreviation bytes := (list Byte.byte) (only parsing).

Definition UINT256_MAX : Z := 2 ^ 256 - 1.
Definition UINT32_MOD : Z := 2 ^ 32.

Definition is_uint256 (n : Z) : Prop := 0 <= n <= UINT256_MAX.
Definition is_uint32 (n : Z) : Prop := 0 <= n < UINT32_MOD.

(** ** Collaborators: the FHE library, the hash and the contract's address *)

Class FHEVM := {
  (** [address(this)] *)
  this : address;
  (** [FHE.asEuint32]: trivial encryption of a 32-bit plaintext *)
  FHE_asEuint32 : Z -> euint32;
  (** [FHE.add] on two [euint32] handles *)
  FHE_add : euint32 -> euint32 -> euint32;
  (** [FHE.toBytes32] *)
  FHE_toBytes32 : euint32 -> bytes32;
  (** [FHE.checkSignatures(requestId, cleartexts, proof)] *)
  FHE_checkSignatures : uint256 -> bytes -> bytes -> bool;
  (** [keccak256(abi.encode(cts, a))] *)
  keccak256_abi_encode : list bytes32 -> address -> bytes32
}.

(** ** Storage layout *)

Record Payment := {
  provider : address;
  encryptedAmount : euint32;
  submissionTimestamp : uint256
}.

Record Batch := {
  Batch_id : uint256;
  totalEncryptedAmount : uint256;
  closed : bool
}.

Record DecryptionContext := {
  batchId : uint256;
  stateHash : bytes32;
  processed : bool
}.

Record Storage := {
  owner : address;
  providers : gmap Z bool;
  paused : bool;
  cooldownSeconds : uint256;
  lastSubmissionTime : gmap Z Z;
  lastDecryptionRequestTime : gmap Z Z;
  payments : list Payment;
  batches : list Batch;
  decryptionContexts : gmap Z DecryptionContext
}.

Inductive Event :=
| OwnershipTransferred (previousOwner newOwner : address)
| ProviderAdded (p : address)
| ProviderRemoved (p : address)
| PauseToggled (b : bool)
| CooldownSecondsUpdated (oldCooldown newCooldown : uint256)
| BatchOpened (batch : uint256)
| BatchClosed (batch : uint256) (total : euint32)
| PaymentSubmitted (paymentId batch : uint256) (p : address) (amount : euint32)
| DecryptionRequested (requestId batch : uint256) (h : bytes32)
| DecryptionCompleted (requestId batch : uint256) (totalAmount : uint256).

Inductive Error :=
| NotOwner
| NotProvider
| Paused
| CooldownActive
| BatchClosedOrNonexistent
| InvalidBatch
| ReplayAttempt
| StateMismatch
| InvalidProof.

(** Why a call reverted: one of the contract's custom errors, a compiler
    inserted panic (0x11 arithmetic overflow, 0x32 index out of bounds) or
    a failed [abi.decode]. *)
Inductive Failure :=
| Custom (e : Error)
| Panic (code : Z)
| DecodeFailure.

(** The names the specification gives to the errors, and the error of the
    contract each one stands for.  [UnknownRequest] stands for none. *)
Module Spec.
Inductive Error :=
| NotAuthorized
| SystemPaused
| CooldownActive
| NoOpenBatch
| InvalidBatch
| UnknownRequest
| ReplayAttempt
| StateMismatch
| InvalidProof.
End Spec.

Definition specError (e : Error) : Spec.Error :=
  match e with
  | NotOwner | NotProvider => Spec.NotAuthorized
  | Paused => Spec.SystemPaused
  | CooldownActive => Spec.CooldownActive
  | BatchClosedOrNonexistent => Spec.NoOpenBatch
  | InvalidBatch => Spec.InvalidBatch
  | ReplayAttempt => Spec.ReplayAttempt
  | StateMismatch => Spec.StateMismatch
  | InvalidProof => Spec.InvalidProof
  end.

(** *** Reading mappings: an absent key reads as zero *)

Definition zeroContext : DecryptionContext :=
  {| batchId := 0; stateHash := 0; processed := false |}.

Definition readBool (m : gmap Z bool) (k : Z) : bool := default false (m !! k).
Definition readUint (m : gmap Z Z) (k : Z) : Z := default 0 (m !! k).
Definition readContext (m : gmap Z DecryptionContext) (k : Z) : DecryptionContext :=
  default zeroContext (m !! k).

(** *** Field updates *)

Definition set_owner (v : address) (s : Storage) : Storage :=
  {| owner := v; providers := providers s; paused := paused s;
     cooldownSeconds := cooldownSeconds s;
     lastSubmissionTime := lastSubmissionTime s;
     lastDecryptionRequestTime := lastDecryptionRequestTime s;
     payments := payments s; batches := batches s;
     decryptionContexts := decryptionContexts s |}.

Definition set_providers (v : gmap Z bool) (s : Storage) : Storage :=
  {| owner := owner s; providers := v; paused := paused s;
     cooldownSeconds := cooldownSeconds s;
     lastSubmissionTime := lastSubmissionTime s;
     lastDecryptionRequestTime := lastDecryptionRequestTime s;
     payments := payments s; batches := batches s;
     decryptionContexts := decryptionContexts s |}.

Definition set_paused (v : bool) (s : Storage) : Storage :=
  {| owner := owner s; providers := providers s; paused := v;
     cooldownSeconds := cooldownSeconds s;
     lastSubmissionTime := lastSubmissionTime s;
     lastDecryptionRequestTime := lastDecryptionRequestTime s;
     payments := payments s; batches := batches s;
     decryptionContexts := decryptionContexts s |}.

Definition set_cooldownSeconds (v : uint256) (s : Storage) : Storage :=
  {| owner := owner s; providers := providers s; paused := paused s;
     cooldownSeconds := v;
     lastSubmissionTime := lastSubmissionTime s;
     lastDecryptionRequestTime := lastDecryptionRequestTime s;
     payments := payments s; batches := batches s;
     decryptionContexts := decryptionContexts s |}.

Definition set_lastSubmissionTime (v : gmap Z Z) (s : Storage) : Storage :=
  {| owner := owner s; providers := providers s; paused := paused s;
     cooldownSeconds := cooldownSeconds s;
     lastSubmissionTime := v;
     lastDecryptionRequestTime := lastDecryptionRequestTime s;
     payments := payments s; batches := batches s;
     decryptionContexts := decryptionContexts s |}.

Definition set_lastDecryptionRequestTime (v : gmap Z Z) (s : Storage) : Storage :=
  {| owner := owner s; providers := providers s; paused := paused s;
     cooldownSeconds := cooldownSeconds s;
     lastSubmissionTime := lastSubmissionTime s;
     lastDecryptionRequestTime := v;
     payments := payments s; batches := batches s;
     decryptionContexts := decryptionContexts s |}.

Definition set_payments (v : list Payment) (s : Storage) : Storage :=
  {| owner := owner s; providers := providers s; paused := paused s;
     cooldownSeconds := cooldownSeconds s;
     lastSubmissionTime := lastSubmissionTime s;
     lastDecryptionRequestTime := lastDecryptionRequestTime s;
     payments := v; batches := batches s;
     decryptionContexts := decryptionContexts s |}.

Definition set_batches (v : list Batch) (s : Storage) : Storage :=
  {| owner := owner s; providers := providers s; paused := paused s;
     cooldownSeconds := cooldownSeconds s;
     lastSubmissionTime := lastSubmissionTime s;
     lastDecryptionRequestTime := lastDecryptionRequestTime s;
     payments := payments s; batches := v;
     decryptionContexts := decryptionContexts s |}.

Definition set_decryptionContexts (v : gmap Z DecryptionContext) (s : Storage) : Storage :=
  {| owner := owner s; providers := providers s; paused := paused s;
     cooldownSeconds := cooldownSeconds s;
     lastSubmissionTime := lastSubmissionTime s;
     lastDecryptionRequestTime := lastDecryptionRequestTime s;
     payments := payments s; batches := batches s;
     decryptionContexts := v |}.

(** ** The execution monad *)

Inductive Result (A : Type) :=
| Ok (a : A) (s : Storage) (log : list Event)
| Revert (f : Failure).
Arguments Ok {A} a s log.
Arguments Revert {A} f.

Definition M (A : Type) : Type := Storage -> list Event -> Result A.

#[export] Instance M_ret : MRet M := fun A a s log => Ok a s log.
#[export] Instance M_bind : MBind M := fun A B k m s log =>
  match m s log with
  | Ok a s' log' => k a s' log'
  | Revert f => Revert f
  end.

Definition revert {A} (e : Error) : M A := fun _ _ => Revert (Custom e).
Definition panic {A} (code : Z) : M A := fun _ _ => Revert (Panic code).
Definition fail_decode {A} : M A := fun _ _ => Revert DecodeFailure.
Definition get : M Storage := fun s log => Ok s s log.
Definition modify (f : Storage -> Storage) : M unit := fun s log => Ok tt (f s) log.
Definition emit (e : Event) : M unit := fun s log => Ok tt s (log ++ [e]).

(** [if (c) revert e();] *)
Definition revert_if (c : bool) (e : Error) : M unit :=
  if c then revert e else mret tt.

(** Checked [a + b] on [uint256]. *)
Definition checked_add (a b : uint256) : M uint256 :=
  if a + b <=? UINT256_MAX then mret (a + b) else panic 17.

(** [bs[i]] on a storage array: out of bounds panics with 0x32. *)
Definition index (bs : list Batch) (i : uint256) : M Batch :=
  match bs !! Z.to_nat i with
  | Some b => mret b
  | None => panic 50
  end.

(** The environment of one call: [msg.sender], [block.timestamp], and the
    request id the oracle hands out should this call reach
    [FHE.requestDecryption]. *)
Record Env := {
  msg_sender : address;
  block_timestamp : uint256;
  oracle_requestId : uint256
}.

(** The outcome of a transaction: on success the events it emitted, on
    failure the reason.  A reverted transaction leaves the storage as it
    found it. *)
Inductive Outcome :=
| Success (log : list Event)
| Reverted (f : Failure).

Definition transact (m : M unit) (s : Storage) : Storage * Outcome :=
  match m s [] with
  | Ok _ s' log => (s', Success log)
  | Revert f => (s, Reverted f)
  end.

(** [abi.decode(cleartexts, (uint256))]: the first 32 bytes, big endian;
    shorter input makes the decoder revert. *)
Definition abi_decode_uint256 (data : bytes) : option uint256 :=
  if (length data <? 32)%nat then None
  else Some (fold_left (fun acc b => acc * 256 + Z.of_N (Byte.to_N b)) (take 32 data) 0).

(** ** The contract *)

Section Contract.
Context `{FHEVM}.

(** *** Modifiers *)

Definition onlyOwner (env : Env) (body : M unit) : M unit :=
  s ← get;
  revert_if (negb (msg_sender env =? owner s)) NotOwner;;
  body.

Definition onlyProvider (env : Env) (body : M unit) : M unit :=
  s ← get;
  revert_if (negb (readBool (providers s) (msg_sender env))) NotProvider;;
  body.

Definition whenNotPaused (body : M unit) : M unit :=
  s ← get;
  revert_if (paused s) Paused;;
  body.

(** *** Constructor *)

Definition constructor (env : Env) : Storage :=
  {| owner := msg_sender env;
     providers := ∅;
     paused := false;
     cooldownSeconds := 60;
     lastSubmissionTime := ∅;
     lastDecryptionRequestTime := ∅;
     payments := [];
     batches := [];
     decryptionContexts := ∅ |}.

(** *** Administration *)

Definition transferOwnership (env : Env) (newOwner : address) : M unit :=
  onlyOwner env (
    s ← get;
    let previousOwner := owner s in
    modify (set_owner newOwner);;
    emit (OwnershipTransferred previousOwner newOwner)).

Definition addProvider (env : Env) (p : address) : M unit :=
  onlyOwner env (
    modify (fun s => set_providers (<[p := true]> (providers s)) s);;
    emit (ProviderAdded p)).

Definition removeProvider (env : Env) (p : address) : M unit :=
  onlyOwner env (
    modify (fun s => set_providers (<[p := false]> (providers s)) s);;
    emit (ProviderRemoved p)).

Definition setPaused (env : Env) (_paused : bool) : M unit :=
  onlyOwner env (
    modify (set_paused _paused);;
    emit (PauseToggled _paused)).

Definition setCooldownSeconds (env : Env) (newCooldownSeconds : uint256) : M unit :=
  onlyOwner env (
    s ← get;
    let oldCooldown := cooldownSeconds s in
    modify (set_cooldownSeconds newCooldownSeconds);;
    emit (CooldownSecondsUpdated oldCooldown newCooldownSeconds)).

(** *** Batches and payments *)

(** [batches.length == 0 || batches[batches.length - 1].closed] *)
Definition noOpenBatch (bs : list Batch) : bool :=
  if Z.of_nat (length bs) =? 0 then true
  else match bs !! Z.to_nat (Z.of_nat (length bs) - 1) with
       | Some b => closed b
       | None => true
       end.

Definition openBatch (env : Env) : M unit :=
  onlyProvider env (whenNotPaused (
    s ← get;
    deadline ← checked_add (readUint (lastSubmissionTime s) (msg_sender env)) (cooldownSeconds s);
    revert_if (block_timestamp env <? deadline) CooldownActive;;
    modify (fun s => set_lastSubmissionTime
      (<[msg_sender env := block_timestamp env]> (lastSubmissionTime s)) s);;
    s ← get;
    let batchId := Z.of_nat (length (batches s)) in
    modify (set_batches (batches s ++
      [{| Batch_id := batchId; totalEncryptedAmount := FHE_asEuint32 0; closed := false |}]));;
    emit (BatchOpened batchId))).

Definition submitPayment (env : Env) (encryptedAmount : Z) : M unit :=
  onlyProvider env (whenNotPaused (
    s ← get;
    deadline ← checked_add (readUint (lastSubmissionTime s) (msg_sender env)) (cooldownSeconds s);
    revert_if (block_timestamp env <? deadline) CooldownActive;;
    modify (fun s => set_lastSubmissionTime
      (<[msg_sender env := block_timestamp env]> (lastSubmissionTime s)) s);;
    s ← get;
    revert_if (noOpenBatch (batches s)) BatchClosedOrNonexistent;;
    let last_index := Z.of_nat (length (batches s)) - 1 in
    currentBatch ← index (batches s) last_index;
    let userEncryptedAmount := FHE_asEuint32 encryptedAmount in
    modify (fun s => set_payments (payments s ++
      [{| provider := msg_sender env;
          encryptedAmount := userEncryptedAmount;
          submissionTimestamp := block_timestamp env |}]) s);;
    modify (fun s => set_batches (<[Z.to_nat last_index :=
      {| Batch_id := Batch_id currentBatch;
         totalEncryptedAmount := FHE_add (totalEncryptedAmount currentBatch) userEncryptedAmount;
         closed := closed currentBatch |}]> (batches s)) s);;
    s ← get;
    emit (PaymentSubmitted (Z.of_nat (length (payments s)) - 1)
            (Batch_id currentBatch) (msg_sender env) userEncryptedAmount))).

Definition closeBatch (env : Env) : M unit :=
  onlyProvider env (whenNotPaused (
    s ← get;
    revert_if (noOpenBatch (batches s)) BatchClosedOrNonexistent;;
    let last_index := Z.of_nat (length (batches s)) - 1 in
    currentBatch ← index (batches s) last_index;
    modify (fun s => set_batches (<[Z.to_nat last_index :=
      {| Batch_id := Batch_id currentBatch;
         totalEncryptedAmount := totalEncryptedAmount currentBatch;
         closed := true |}]> (batches s)) s);;
    emit (BatchClosed (Batch_id currentBatch) (totalEncryptedAmount currentBatch)))).

(** *** The decryption protocol *)

Definition _hashCiphertexts (cts : list bytes32) : bytes32 :=
  keccak256_abi_encode cts this.

(** [batchId >= batches.length || !batches[batchId].closed] *)
Definition notClosedBatch (bs : list Batch) (batchId : uint256) : bool :=
  if Z.of_nat (length bs) <=? batchId then true
  else match bs !! Z.to_nat batchId with
       | Some b => negb (closed b)
       | None => true
       end.

Definition requestBatchTotalDecryption (env : Env) (batchId : uint256) : M unit :=
  whenNotPaused (
    s ← get;
    deadline ← checked_add (readUint (lastDecryptionRequestTime s) (msg_sender env)) (cooldownSeconds s);
    revert_if (block_timestamp env <? deadline) CooldownActive;;
    modify (fun s => set_lastDecryptionRequestTime
      (<[msg_sender env := block_timestamp env]> (lastDecryptionRequestTime s)) s);;
    s ← get;
    revert_if (notClosedBatch (batches s) batchId) InvalidBatch;;
    b ← index (batches s) batchId;
    let totalEncryptedAmount := totalEncryptedAmount b in
    let cts := [FHE_toBytes32 totalEncryptedAmount] in
    let stateHash := _hashCiphertexts cts in
    let requestId := oracle_requestId env in
    modify (fun s => set_decryptionContexts (<[requestId :=
      {| batchId := batchId; stateHash := stateHash; processed := false |}]>
      (decryptionContexts s)) s);;
    emit (DecryptionRequested requestId batchId stateHash)).

Definition myCallback (requestId : uint256) (cleartexts proof : bytes) : M unit :=
  s ← get;
  let ctx := readContext (decryptionContexts s) requestId in
  revert_if (processed ctx) ReplayAttempt;;
  let batchId := batchId ctx in
  revert_if (notClosedBatch (batches s) batchId) InvalidBatch;;
  b ← index (batches s) batchId;
  let totalEncryptedAmount := totalEncryptedAmount b in
  let cts := [FHE_toBytes32 totalEncryptedAmount] in
  let currentHash := _hashCiphertexts cts in
  revert_if (negb (currentHash =? stateHash ctx)) StateMismatch;;
  revert_if (negb (FHE_checkSignatures requestId cleartexts proof)) InvalidProof;;
  match abi_decode_uint256 cleartexts with
  | None => fail_decode
  | Some totalAmount =>
      modify (fun s => set_decryptionContexts (<[requestId :=
        {| batchId := batchId; stateHash := stateHash ctx; processed := true |}]>
        (decryptionContexts s)) s);;
      emit (DecryptionCompleted requestId batchId totalAmount)
  end.

(** *** Entry points and traces *)

Inductive Call :=
| TransferOwnership (newOwner : address)
| AddProvider (p : address)
| RemoveProvider (p : address)
| SetPaused (b : bool)
| SetCooldownSeconds (n : uint256)
| OpenBatch
| SubmitPayment (amount : Z)
| CloseBatch
| RequestBatchTotalDecryption (batch : uint256)
| MyCallback (requestId : uint256) (cleartexts proof : bytes).

Definition dispatch (env : Env) (c : Call) : M unit :=
  match c with
  | TransferOwnership a => transferOwnership env a
  | AddProvider p => addProvider env p
  | RemoveProvider p => removeProvider env p
  | SetPaused b => setPaused env b
  | SetCooldownSeconds n => setCooldownSeconds env n
  | OpenBatch => openBatch env
  | SubmitPayment v => submitPayment env v
  | CloseBatch => closeBatch env
  | RequestBatchTotalDecryption b => requestBatchTotalDecryption env b
  | MyCallback r c p => myCallback r c p
  end.

Definition call (s : Storage) (tx : Env * Call) : Storage * Outcome :=
  transact (dispatch tx.1 tx.2) s.

Definition step (s : Storage) (tx : Env * Call) : Storage := (call s tx).1.

Definition run (s : Storage) (txs : list (Env * Call)) : Storage := foldl step s txs.

Definition reachable (s : Storage) : Prop :=
  ∃ deploy txs, s = run (constructor deploy) txs.

(** *** Vocabulary of the properties *)

(** The cooldown test shared by [openBatch], [submitPayment] and
    [requestBatchTotalDecryption]: the checked sum [last + cooldown], then
    [block.timestamp < last + cooldown].  [None] lets the call through. *)
Definition cooldownGate (last cooldown now : Z) : option Failure :=
  if last + cooldown <=? UINT256_MAX
  then if now <? last + cooldown then Some (Custom CooldownActive) else None
  else Some (Panic 17).

Definition closedBatchAt (bs : list Batch) (i : Z) (b : Batch) : Prop :=
  0 <= i /\ bs !! Z.to_nat i = Some b /\ closed b = true.

Inductive batches_step : list Batch -> list Batch -> Prop :=
| batches_same bs : batches_step bs bs
| batches_opened bs b : closed b = false -> batches_step bs (bs ++ [b])
| batches_latest bs b b' :
    closed b = false -> Batch_id b' = Batch_id b -> batches_step (bs ++ [b]) (bs ++ [b']).

(** The fingerprint the decryption protocol binds to: the hash of the
    batch's aggregate handle and of the contract's address. *)
Definition fingerprint (s : Storage) (i : nat) : option Z :=
  (fun b => _hashCiphertexts [FHE_toBytes32 (totalEncryptedAmount b)]) <$> batches s !! i.

Definition events (o : Outcome) : list Event :=
  match o with
  | Success log => log
  | Reverted _ => []
  end.

(** The entry points that carry [onlyProvider whenNotPaused]. *)
Definition providerGated (c : Call) : bool :=
  match c with
  | OpenBatch | SubmitPayment _ | CloseBatch => true
  | _ => false
  end.

(** The public getters. *)
Inductive Getter :=
| get_owner
| get_providers (a : Z)
| get_paused
| get_cooldownSeconds
| get_lastSubmissionTime (a : Z)
| get_lastDecryptionRequestTime (a : Z)
| get_payments (i : Z)
| get_batches (i : Z)
| get_decryptionContexts (r : Z).

Inductive Value :=
| VAddress (a : Z)
| VBool (b : bool)
| VUint (n : Z)
| VPayment (p : Payment)
| VBatch (b : Batch)
| VContext (c : DecryptionContext).

(** A getter of a storage array reverts out of range ([None]). *)
Definition read (s : Storage) (g : Getter) : option Value :=
  match g with
  | get_owner => Some (VAddress (owner s))
  | get_providers a => Some (VBool (readBool (providers s) a))
  | get_paused => Some (VBool (paused s))
  | get_cooldownSeconds => Some (VUint (cooldownSeconds s))
  | get_lastSubmissionTime a => Some (VUint (readUint (lastSubmissionTime s) a))
  | get_lastDecryptionRequestTime a =>
      Some (VUint (readUint (lastDecryptionRequestTime s) a))
  | get_payments i =>
      if Z.of_nat (length (payments s)) <=? i then None
      else VPayment <$> payments s !! Z.to_nat i
  | get_batches i =>
      if Z.of_nat (length (batches s)) <=? i then None
      else VBatch <$> batches s !! Z.to_nat i
  | get_decryptionContexts r => Some (VContext (readContext (decryptionContexts s) r))
  end.

Definition atMostOneOpen (bs : list Batch) : Prop :=
  forall i j bi bj,
    bs !! i = Some bi -> bs !! j = Some bj ->
    closed bi = false -> closed bj = false -> i = j.

(** Every batch before the latest one is closed. *)
Definition earlierClosed (bs : list Batch) : Prop :=
  forall i b, bs !! i = Some b -> (S i < length bs)%nat -> closed b = true.

Definition isOpenBatch (c : Call) : bool :=
  match c with
  | OpenBatch => true
  | _ => false
  end.

(** A trace keeps the discipline "close before open" when each [openBatch]
    in it is issued in a state with no batch yet or with the latest batch
    closed. *)
Fixpoint closeBeforeOpen (s : Storage) (txs : list (Env * Call)) : bool :=
  match txs with
  | [] => true
  | tx :: rest =>
      (if isOpenBatch tx.2 then noOpenBatch (batches s) else true)
      && closeBeforeOpen (step s tx) rest
  end.

(** Addition on [euint32] plaintexts: 32-bit, wrapping. *)
Definition add32 (a b : Z) : Z := (a + b) mod UINT32_MOD.
Definition sum32 (vs : list Z) : Z := foldl add32 0 vs.
Definition sumZ (vs : list Z) : Z := foldr Z.add 0 vs.

(** What it means for the FHE library to be homomorphic: [decrypt] reads
    the plaintext behind a handle, trivial encryption of a 32-bit value
    decrypts to it, and [FHE.add] decrypts to the 32-bit sum. *)
Class FHE_correct (decrypt : Z -> Z) : Prop := {
  decrypt_asEuint32 : forall v, is_uint32 v -> decrypt (FHE_asEuint32 v) = v;
  decrypt_add : forall a b, decrypt (FHE_add a b) = add32 (decrypt a) (decrypt b)
}.

(** The calls that the submission cooldown rates: they check and set
    [lastSubmissionTime]. *)
Definition submissionClass (c : Call) : bool :=
  match c with
  | OpenBatch | SubmitPayment _ => true
  | _ => false
  end.

Definition succeeds (o : Outcome) : bool :=
  match o with
  | Success _ => true
  | Reverted _ => false
  end.

(** The argument of [submitPayment] is a [uint32]. *)
Definition wellTyped (tx : Env * Call) : Prop :=
  match tx.2 with
  | SubmitPayment v => is_uint32 v
  | _ => True
  end.

(** The plaintext that [tx], issued in [s], contributes to batch [n]: the
    argument of a [submitPayment] that succeeds while batch [n] is the
    latest batch. *)
Definition contribution (n : nat) (s : Storage) (tx : Env * Call) : option Z :=
  match tx.2 with
  | SubmitPayment v =>
      if succeeds (call s tx).2 && (length (batches s) =? S n)%nat then Some v else None
  | _ => None
  end.

(** The contributions to batch [n] along a trace issued from [s]. *)
Fixpoint contributions (n : nat) (s : Storage) (txs : list (Env * Call)) : list Z :=
  match txs with
  | [] => []
  | tx :: rest =>
      match contribution n s tx with
      | Some v => v :: contributions n (step s tx) rest
      | None => contributions n (step s tx) rest
      end
  end.

(** The amounts of the [submitPayment] calls of a trace. *)
Definition amount (tx : Env * Call) : option Z :=
  match tx.2 with
  | SubmitPayment v => Some v
  | _ => None
  end.

Definition amounts (txs : list (Env * Call)) : list Z := omap amount txs.

(** Every call of the trace is a [submitPayment] and succeeds. *)
Fixpoint successfulSubmissions (s : Storage) (txs : list (Env * Call)) : bool :=
  match txs with
  | [] => true
  | tx :: rest =>
      match tx.2 with
      | SubmitPayment _ => succeeds (call s tx).2 && successfulSubmissions (step s tx) rest
      | _ => false
      end
  end.

(** *** Vocabulary of the further properties *)

(** The entry points that carry [onlyOwner]. *)
Definition adminCall (c : Call) : bool :=
  match c with
  | TransferOwnership _ | AddProvider _ | RemoveProvider _
  | SetPaused _ | SetCooldownSeconds _ => true
  | _ => false
  end.

(** The entry of the ledger that [tx], issued in [s], appends: the one of
    a [submitPayment] that succeeds. *)
Definition ledgerEntry (s : Storage) (tx : Env * Call) : option Payment :=
  match tx.2 with
  | SubmitPayment v =>
      if succeeds (call s tx).2
      then Some {| provider := msg_sender tx.1;
                   encryptedAmount := FHE_asEuint32 v;
                   submissionTimestamp := block_timestamp tx.1 |}
      else None
  | _ => None
  end.

Fixpoint ledgerEntries (s : Storage) (txs : list (Env * Call)) : list Payment :=
  match txs with
  | [] => []
  | tx :: rest =>
      match ledgerEntry s tx with
      | Some p => p :: ledgerEntries (step s tx) rest
      | None => ledgerEntries (step s tx) rest
      end
  end.

(** The identifier of a batch is its position in the array. *)
Definition idsMatch (bs : list Batch) : Prop :=
  forall i b, bs !! i = Some b -> Batch_id b = Z.of_nat i.

(** A context is bound to the storage when its batch passes the callback's
    batch test and its hash is the fingerprint of that batch. *)
Definition contextBound (s : Storage) (ctx : DecryptionContext) : Prop :=
  notClosedBatch (batches s) (batchId ctx) = false /\
  exists b, batches s !! Z.to_nat (batchId ctx) = Some b /\
    stateHash ctx = _hashCiphertexts [FHE_toBytes32 (totalEncryptedAmount b)].

Definition contextsBound (s : Storage) : Prop :=
  forall r ctx, decryptionContexts s !! r = Some ctx -> contextBound s ctx.

(** [tx] is a decryption request to which the oracle answers with the
    request id [r]. *)
Definition reissues (r : Z) (tx : Env * Call) : bool :=
  match tx.2 with
  | RequestBatchTotalDecryption _ => oracle_requestId tx.1 =? r
  | _ => false
  end.

(** [tx] is the owner's [addProvider p]. *)
Definition admits (p : Z) (tx : Env * Call) : bool :=
  match tx.2 with
  | AddProvider q => q =? p
  | _ => false
  end.

(** The plaintext totals of the batches and of the ledger. *)
Definition batchesTotal (decrypt : Z -> Z) (bs : list Batch) : Z :=
  sumZ (map (fun b => decrypt (totalEncryptedAmount b)) bs).

Definition ledgerTotal (decrypt : Z -> Z) (ps : list Payment) : Z :=
  sumZ (map (fun p => decrypt (encryptedAmount p)) ps).

(** The entry points that carry [whenNotPaused]. *)
Definition pauseGated (c : Call) : bool :=
  match c with
  | OpenBatch | SubmitPayment _ | CloseBatch | RequestBatchTotalDecryption _ => true
  | _ => false
  end.

Definition isRequest (c : Call) : bool :=
  match c with
  | RequestBatchTotalDecryption _ => true
  | _ => false
  end.

(** [tx] is a call that the submission cooldown, respectively the
    decryption cooldown, rates, sent by [a]. *)
Definition submissionBy (a : Z) (tx : Env * Call) : bool :=
  submissionClass tx.2 && (msg_sender tx.1 =? a).

Definition requestBy (a : Z) (tx : Env * Call) : bool :=
  isRequest tx.2 && (msg_sender tx.1 =? a).

(** The batches and the ledger differ by a multiple of 2^32. *)
Definition balanced (decrypt : Z -> Z) (s : Storage) : Prop :=
  exists k, batchesTotal decrypt (batches s) - ledgerTotal decrypt (payments s)
            = k * UINT32_MOD.

End Contract.

(** ** A plaintext instance of the collaborators

    Handles carry their plaintext, addition is addition modulo 2^32, the
    hash is an injective packing of the first ciphertext and the address,
    and a proof verifies when it is the single byte 0x01.  It is used to run
    the contract on concrete traces. *)

Definition plainFHE : FHEVM := {|
  this := 4096;
  FHE_asEuint32 := fun v => v mod UINT32_MOD;
  FHE_add := fun a b => (a + b) mod UINT32_MOD;
  FHE_toBytes32 := fun c => c;
  FHE_checkSignatures := fun _ _ proof =>
    match proof with
    | [Byte.x01] => true
    | _ => false
    end;
  keccak256_abi_encode := fun cts a => 1 + a + 2 ^ 160 * (default 0 (head cts))
|}.

Definition at_ (sender time : Z) : Env :=
  {| msg_sender := sender; block_timestamp := time; oracle_requestId := 0 |}.

Definition word (n : Z) : list Byte.byte :=
  replicate 31 Byte.x00 ++ [default Byte.x00 (Byte.of_N (Z.to_N n))].

(** Address 1 deploys the contract and owns it, address 2 is made a
    provider, address 3 is a bystander. *)

Section Traces.
#[local] Existing Instance plainFHE.

Definition genesis : Storage := constructor (at_ 1 0).

Definition withProvider : Storage := run genesis [(at_ 1 10, AddProvider 2)].

(** One batch: opened, two payments, closed, decryption requested by the
    bystander under request id 7. *)
Definition oneBatch : list (Env * Call) :=
  [ (at_ 1 10, AddProvider 2);
    (at_ 2 100, OpenBatch);
    (at_ 2 160, SubmitPayment 10);
    (at_ 2 220, SubmitPayment 15);
    (at_ 2 221, CloseBatch);
    ({| msg_sender := 3; block_timestamp := 300; oracle_requestId := 7 |},
       RequestBatchTotalDecryption 0) ].

Definition requested : Storage := run genesis oneBatch.

(** Two consecutive [openBatch], the second batch closed and requested. *)
Definition twoOpens : list (Env * Call) :=
  [ (at_ 1 10, AddProvider 2);
    (at_ 2 100, OpenBatch);
    (at_ 2 200, OpenBatch) ].

Definition orphaned : Storage :=
  run genesis (twoOpens ++
    [ (at_ 2 201, CloseBatch);
      ({| msg_sender := 3; block_timestamp := 300; oracle_requestId := 8 |},
         RequestBatchTotalDecryption 1) ]).

(** The owner raises the cooldown to the largest [uint256] after the
    provider's first payment. *)
Definition frozen : Storage :=
  run genesis
    [ (at_ 1 10, AddProvider 2);
      (at_ 2 1000, OpenBatch);
      (at_ 2 1060, SubmitPayment 5);
      (at_ 1 1061, SetCooldownSeconds UINT256_MAX) ].

(** Payments into batch 0 with a payment inside the cooldown, a change of
    the cooldown, a bystander's request, and a further batch after it. *)
Definition mixedTrace : list (Env * Call) :=
  [ (at_ 2 160, SubmitPayment 10);
    (at_ 2 170, SubmitPayment 99);
    (at_ 1 180, SetCooldownSeconds 30);
    (at_ 3 190, RequestBatchTotalDecryption 0);
    (at_ 2 200, SubmitPayment 15);
    (at_ 2 201, CloseBatch);
    (at_ 2 300, OpenBatch);
    (at_ 2 400, SubmitPayment 1000) ].

Definition finalized : Storage :=
  run requested [(at_ 9 400, MyCallback 7 (word 25) [Byte.x01])].

(** The storage of [requested] with the aggregate of batch 0 replaced. *)
Definition tampered : Storage :=
  set_batches [{| Batch_id := 0; totalEncryptedAmount := 26; closed := true |}] requested.

Definition sealed : Storage := run genesis (take 5 oneBatch).

Definition laterTrace : list (Env * Call) :=
  [ (at_ 2 400, OpenBatch);
    (at_ 2 460, SubmitPayment 7);
    (at_ 9 470, MyCallback 7 (word 25) [Byte.x01]);
    (at_ 1 480, SetPaused true);
    (at_ 2 520, CloseBatch) ].

Definition halted : Storage := run requested [(at_ 1 350, SetPaused true)].

Definition paidOnce : Storage :=
  run withProvider [(at_ 2 100, OpenBatch); (at_ 2 160, SubmitPayment 10)].

Definition firstOpen : Storage := run withProvider [(at_ 2 100, OpenBatch)].

Definition afterOrphan : list (Env * Call) :=
  [ (at_ 2 260, SubmitPayment 10);
    (at_ 2 261, CloseBatch);
    ({| msg_sender := 3; block_timestamp := 300; oracle_requestId := 8 |},
       RequestBatchTotalDecryption 1);
    (at_ 2 400, OpenBatch);
    (at_ 2 401, CloseBatch) ].

(** The provider of [withProvider] removed again. *)
Definition dismissed : Storage := run withProvider [(at_ 1 20, RemoveProvider 2)].

(** Calls of the provider, of the bystander and of another address, and the
    owner's admission of address 7. *)
Definition withoutReadmission : list (Env * Call) :=
  [ (at_ 2 100, OpenBatch);
    (at_ 1 110, AddProvider 7);
    (at_ 7 200, OpenBatch);
    (at_ 2 300, SubmitPayment 4);
    (at_ 1 310, SetPaused true) ].

(** Calls made while the contract is paused. *)
Definition whilePaused : list (Env * Call) :=
  [ (at_ 2 400, SubmitPayment 5);
    (at_ 3 500, RequestBatchTotalDecryption 0);
    (at_ 2 600, CloseBatch);
    (at_ 2 700, OpenBatch) ].

(** A whole history: a batch with payments, closed, and a second batch. *)
Definition history : list (Env * Call) :=
  (at_ 1 10, AddProvider 2) :: (at_ 2 100, OpenBatch) :: mixedTrace.

End Traces.

(** ** Properties *)

Ltac unfold_contract :=
  unfold call, transact, dispatch, openBatch, submitPayment, closeBatch,
    requestBatchTotalDecryption, myCallback, transferOwnership, addProvider,
    removeProvider, setPaused, setCooldownSeconds, onlyOwner, onlyProvider,
    whenNotPaused, revert_if, checked_add, index, get, modify, emit, revert,
    panic, fail_decode, mbind, M_bind, mret, M_ret in *.

(** Split on the first test whose condition is itself free of tests. *)
Ltac split_test :=
  match goal with
  | |- context [if ?c then _ else _] =>
      lazymatch c with
      | context [if _ then _ else _] => fail
      | context [match _ with _ => _ end] => fail
      | _ => destruct c eqn:?; cbn
      end
  | |- context [match ?c with Some _ => _ | None => _ end] =>
      lazymatch c with
      | context [if _ then _ else _] => fail
      | context [match _ with _ => _ end] => fail
      | _ => destruct c eqn:?; cbn
      end
  end.

Ltac run_contract := unfold_contract; cbn; repeat split_test; try reflexivity.

Section Properties.
Context `{FHEVM}.

(** *** What each entry point does, as one case analysis *)

Lemma openBatch_eq (s : Storage) (env : Env) :
  call s (env, OpenBatch) =
  if negb (readBool (providers s) (msg_sender env)) then (s, Reverted (Custom NotProvider))
  else if paused s then (s, Reverted (Custom Paused))
  else match cooldownGate (readUint (lastSubmissionTime s) (msg_sender env))
               (cooldownSeconds s) (block_timestamp env) with
       | Some f => (s, Reverted f)
       | None =>
         (set_batches (batches s ++
            [{| Batch_id := Z.of_nat (length (batches s));
                totalEncryptedAmount := FHE_asEuint32 0; closed := false |}])
            (set_lastSubmissionTime
               (<[msg_sender env := block_timestamp env]> (lastSubmissionTime s)) s),
          Success [BatchOpened (Z.of_nat (length (batches s)))])
       end.
Proof.
  unfold cooldownGate. run_contract.
Qed.

Lemma submitPayment_eq (s : Storage) (env : Env) (v : Z) :
  call s (env, SubmitPayment v) =
  if negb (readBool (providers s) (msg_sender env)) then (s, Reverted (Custom NotProvider))
  else if paused s then (s, Reverted (Custom Paused))
  else match cooldownGate (readUint (lastSubmissionTime s) (msg_sender env))
               (cooldownSeconds s) (block_timestamp env) with
       | Some f => (s, Reverted f)
       | None =>
         if noOpenBatch (batches s) then (s, Reverted (Custom BatchClosedOrNonexistent))
         else match batches s !! Z.to_nat (Z.of_nat (length (batches s)) - 1) with
              | None => (s, Reverted (Panic 50))
              | Some b =>
                (set_batches
                   (<[Z.to_nat (Z.of_nat (length (batches s)) - 1) :=
                      {| Batch_id := Batch_id b;
                         totalEncryptedAmount :=
                           FHE_add (totalEncryptedAmount b) (FHE_asEuint32 v);
                         closed := closed b |}]> (batches s))
                   (set_payments
                      (payments s ++
                         [{| provider := msg_sender env;
                             encryptedAmount := FHE_asEuint32 v;
                             submissionTimestamp := block_timestamp env |}])
                      (set_lastSubmissionTime
                         (<[msg_sender env := block_timestamp env]> (lastSubmissionTime s))
                         s)),
                 Success [PaymentSubmitted
                            (Z.of_nat (length (payments s ++
                               [{| provider := msg_sender env;
                                   encryptedAmount := FHE_asEuint32 v;
                                   submissionTimestamp := block_timestamp env |}])) - 1)
                            (Batch_id b) (msg_sender env) (FHE_asEuint32 v)])
              end
       end.
Proof.
  unfold cooldownGate. run_contract.
Qed.

Lemma closeBatch_eq (s : Storage) (env : Env) :
  call s (env, CloseBatch) =
  if negb (readBool (providers s) (msg_sender env)) then (s, Reverted (Custom NotProvider))
  else if paused s then (s, Reverted (Custom Paused))
  else if noOpenBatch (batches s) then (s, Reverted (Custom BatchClosedOrNonexistent))
  else match batches s !! Z.to_nat (Z.of_nat (length (batches s)) - 1) with
       | None => (s, Reverted (Panic 50))
       | Some b =>
         (set_batches
            (<[Z.to_nat (Z.of_nat (length (batches s)) - 1) :=
               {| Batch_id := Batch_id b;
                  totalEncryptedAmount := totalEncryptedAmount b;
                  closed := true |}]> (batches s)) s,
          Success [BatchClosed (Batch_id b) (totalEncryptedAmount b)])
       end.
Proof.
  run_contract.
Qed.

Lemma requestBatchTotalDecryption_eq (s : Storage) (env : Env) (bid : Z) :
  call s (env, RequestBatchTotalDecryption bid) =
  if paused s then (s, Reverted (Custom Paused))
  else match cooldownGate (readUint (lastDecryptionRequestTime s) (msg_sender env))
               (cooldownSeconds s) (block_timestamp env) with
       | Some f => (s, Reverted f)
       | None =>
         if notClosedBatch (batches s) bid then (s, Reverted (Custom InvalidBatch))
         else match batches s !! Z.to_nat bid with
              | None => (s, Reverted (Panic 50))
              | Some b =>
                (set_decryptionContexts
                   (<[oracle_requestId env :=
                      {| batchId := bid;
                         stateHash := _hashCiphertexts [FHE_toBytes32 (totalEncryptedAmount b)];
                         processed := false |}]> (decryptionContexts s))
                   (set_lastDecryptionRequestTime
                      (<[msg_sender env := block_timestamp env]>
                         (lastDecryptionRequestTime s)) s),
                 Success [DecryptionRequested (oracle_requestId env) bid
                            (_hashCiphertexts [FHE_toBytes32 (totalEncryptedAmount b)])])
              end
       end.
Proof.
  unfold cooldownGate. run_contract.
Qed.

Lemma myCallback_eq (s : Storage) (env : Env) (r : Z) (c p : list Byte.byte) :
  call s (env, MyCallback r c p) =
  let ctx := readContext (decryptionContexts s) r in
  if processed ctx then (s, Reverted (Custom ReplayAttempt))
  else if notClosedBatch (batches s) (batchId ctx) then (s, Reverted (Custom InvalidBatch))
  else match batches s !! Z.to_nat (batchId ctx) with
       | None => (s, Reverted (Panic 50))
       | Some b =>
         if negb (_hashCiphertexts [FHE_toBytes32 (totalEncryptedAmount b)] =? stateHash ctx)
         then (s, Reverted (Custom StateMismatch))
         else if negb (FHE_checkSignatures r c p) then (s, Reverted (Custom InvalidProof))
         else match abi_decode_uint256 c with
              | None => (s, Reverted DecodeFailure)
              | Some totalAmount =>
                (set_decryptionContexts
                   (<[r := {| batchId := batchId ctx; stateHash := stateHash ctx;
                              processed := true |}]> (decryptionContexts s)) s,
                 Success [DecryptionCompleted r (batchId ctx) totalAmount])
              end
       end.
Proof.
  run_contract.
Qed.

Lemma transferOwnership_eq (s : Storage) (env : Env) (a : Z) :
  call s (env, TransferOwnership a) =
  if negb (msg_sender env =? owner s) then (s, Reverted (Custom NotOwner))
  else (set_owner a s, Success [OwnershipTransferred (owner s) a]).
Proof.
  run_contract.
Qed.

Lemma addProvider_eq (s : Storage) (env : Env) (a : Z) :
  call s (env, AddProvider a) =
  if negb (msg_sender env =? owner s) then (s, Reverted (Custom NotOwner))
  else (set_providers (<[a := true]> (providers s)) s, Success [ProviderAdded a]).
Proof.
  run_contract.
Qed.

Lemma removeProvider_eq (s : Storage) (env : Env) (a : Z) :
  call s (env, RemoveProvider a) =
  if negb (msg_sender env =? owner s) then (s, Reverted (Custom NotOwner))
  else (set_providers (<[a := false]> (providers s)) s, Success [ProviderRemoved a]).
Proof.
  run_contract.
Qed.

Lemma setPaused_eq (s : Storage) (env : Env) (b : bool) :
  call s (env, SetPaused b) =
  if negb (msg_sender env =? owner s) then (s, Reverted (Custom NotOwner))
  else (set_paused b s, Success [PauseToggled b]).
Proof.
  run_contract.
Qed.

Lemma setCooldownSeconds_eq (s : Storage) (env : Env) (n : Z) :
  call s (env, SetCooldownSeconds n) =
  if negb (msg_sender env =? owner s) then (s, Reverted (Custom NotOwner))
  else (set_cooldownSeconds n s, Success [CooldownSecondsUpdated (cooldownSeconds s) n]).
Proof.
  run_contract.
Qed.

Lemma revert_keeps_storage (s : Storage) (tx : Env * Call) (f : Failure) :
  (call s tx).2 = Reverted f -> (call s tx).1 = s.
Proof.
  unfold call, transact. destruct (dispatch tx.1 tx.2 s []); cbn; [discriminate | reflexivity].
Qed.

(** *** The two batch tests *)

Lemma latest_index (bs : list Batch) (b : Batch) :
  Z.to_nat (Z.of_nat (length (bs ++ [b])) - 1) = length bs.
Proof. rewrite length_app. cbn [length]. lia. Qed.

Lemma lookup_latest (bs : list Batch) (b : Batch) :
  (bs ++ [b]) !! length bs = Some b.
Proof.
  rewrite lookup_app_r by lia.
  replace (length bs - length bs)%nat with 0%nat by lia. reflexivity.
Qed.

Lemma noOpenBatch_false (bs : list Batch) :
  noOpenBatch bs = false -> exists bs0 b, bs = bs0 ++ [b] /\ closed b = false.
Proof.
  unfold noOpenBatch. intros Hn.
  induction bs as [|b0 bs _] using rev_ind; [discriminate |].
  exists bs, b0. rewrite latest_index, lookup_latest in Hn.
  destruct (Z.of_nat (length (bs ++ [b0])) =? 0); [discriminate | auto].
Qed.

Lemma noOpenBatch_snoc (bs : list Batch) (b : Batch) :
  noOpenBatch (bs ++ [b]) = closed b.
Proof.
  unfold noOpenBatch. rewrite latest_index, lookup_latest.
  destruct (Z.of_nat (length (bs ++ [b])) =? 0) eqn:E; [| reflexivity].
  apply Z.eqb_eq in E. rewrite length_app in E. cbn in E. lia.
Qed.

Lemma notClosedBatch_false (bs : list Batch) (i : Z) :
  0 <= i ->
  notClosedBatch bs i = false <-> exists b, closedBatchAt bs i b.
Proof.
  intros Hi. unfold notClosedBatch, closedBatchAt. split.
  - destruct (Z.of_nat (length bs) <=? i); [discriminate |].
    destruct (bs !! Z.to_nat i) as [b|]; [| discriminate].
    intros Hc. exists b. destruct (closed b); [auto | discriminate].
  - intros (b & _ & Hb & Hc).
    pose proof (lookup_lt_Some _ _ _ Hb) as Hlt.
    destruct (Z.of_nat (length bs) <=? i) eqn:E; [apply Z.leb_le in E; lia |].
    rewrite Hb, Hc. reflexivity.
Qed.

Lemma notClosedBatch_open (bs : list Batch) (i : Z) (b : Batch) :
  bs !! Z.to_nat i = Some b -> closed b = false -> notClosedBatch bs i = true.
Proof.
  intros Hb Hc. unfold notClosedBatch. rewrite Hb, Hc.
  destruct (Z.of_nat (length bs) <=? i); reflexivity.
Qed.

(** *** How one transaction can change the array of batches *)

Lemma insert_latest (bs : list Batch) (b b' : Batch) :
  <[length bs := b']> (bs ++ [b]) = bs ++ [b'].
Proof.
  replace (length bs) with (length bs + 0)%nat by lia.
  rewrite insert_app_r. reflexivity.
Qed.

Lemma step_batches (s : Storage) (tx : Env * Call) :
  batches_step (batches s) (batches (step s tx)).
Proof.
  destruct tx as [env c]. unfold step. destruct c.
  - rewrite transferOwnership_eq. split_test; constructor.
  - rewrite addProvider_eq. split_test; constructor.
  - rewrite removeProvider_eq. split_test; constructor.
  - rewrite setPaused_eq. split_test; constructor.
  - rewrite setCooldownSeconds_eq. split_test; constructor.
  - rewrite openBatch_eq. repeat split_test; try constructor. reflexivity.
  - rewrite submitPayment_eq.
    destruct (negb _); [constructor |]. destruct (paused s); [constructor |].
    destruct (cooldownGate _ _ _); [constructor |].
    destruct (noOpenBatch (batches s)) eqn:Hn; [constructor |].
    apply noOpenBatch_false in Hn as (bs0 & b & Hbs & Hc).
    rewrite Hbs, latest_index, lookup_latest. cbn.
    rewrite insert_latest. constructor; auto.
  - rewrite closeBatch_eq.
    destruct (negb _); [constructor |]. destruct (paused s); [constructor |].
    destruct (noOpenBatch (batches s)) eqn:Hn; [constructor |].
    apply noOpenBatch_false in Hn as (bs0 & b & Hbs & Hc).
    rewrite Hbs, latest_index, lookup_latest. cbn.
    rewrite insert_latest. constructor; auto.
  - rewrite requestBatchTotalDecryption_eq. repeat split_test; constructor.
  - rewrite myCallback_eq. cbn. repeat split_test; constructor.
Qed.

Lemma batches_step_closed (bs bs' : list Batch) (i : nat) (b : Batch) :
  batches_step bs bs' -> bs !! i = Some b -> closed b = true -> bs' !! i = Some b.
Proof.
  intros Hs Hb Hc. destruct Hs as [bs | bs b0 H0 | bs b0 b' H0 Hid]; auto.
  - apply lookup_app_l_Some. exact Hb.
  - destruct (decide (i < length bs)%nat) as [Hlt | Hge].
    + rewrite lookup_app_l in Hb |- * by exact Hlt. exact Hb.
    + rewrite lookup_app_r in Hb by lia.
      destruct (i - length bs)%nat; cbn in Hb; [| discriminate].
      congruence.
Qed.

Lemma batches_step_earlier (bs bs' : list Batch) (i : nat) (b : Batch) :
  batches_step bs bs' -> bs !! i = Some b -> (S i < length bs)%nat ->
  bs' !! i = Some b /\ (S i < length bs')%nat.
Proof.
  intros Hs Hb Hlt. destruct Hs as [bs | bs b0 H0 | bs b0 b' H0 Hid]; auto.
  - rewrite length_app. cbn. split; [| lia].
    apply lookup_app_l_Some. exact Hb.
  - rewrite length_app in *. cbn in *.
    rewrite lookup_app_l in Hb |- * by lia. split; [exact Hb | lia].
Qed.

Lemma batches_step_length (bs bs' : list Batch) :
  batches_step bs bs' -> (length bs <= length bs')%nat.
Proof.
  intros [bs0 | bs0 b0 H0 | bs0 b0 b' H0 Hid]; rewrite ?length_app; cbn; lia.
Qed.

Lemma run_cons (s : Storage) (tx : Env * Call) (txs : list (Env * Call)) :
  run s (tx :: txs) = run (step s tx) txs.
Proof. reflexivity. Qed.

Lemma run_batches_closed (s : Storage) (txs : list (Env * Call)) (i : nat) (b : Batch) :
  batches s !! i = Some b -> closed b = true -> batches (run s txs) !! i = Some b.
Proof.
  revert s. induction txs as [|tx txs IH]; intros s Hb Hc; [exact Hb |].
  rewrite run_cons. apply IH; [| exact Hc].
  eapply batches_step_closed; [apply step_batches | exact Hb | exact Hc].
Qed.

Lemma run_batches_earlier (s : Storage) (txs : list (Env * Call)) (i : nat) (b : Batch) :
  batches s !! i = Some b -> (S i < length (batches s))%nat ->
  batches (run s txs) !! i = Some b /\ (S i < length (batches (run s txs)))%nat.
Proof.
  revert s. induction txs as [|tx txs IH]; intros s Hb Hlt; [auto |].
  rewrite run_cons.
  destruct (batches_step_earlier _ _ _ _ (step_batches s tx) Hb Hlt) as [Hb' Hlt'].
  apply IH; assumption.
Qed.

Lemma closeBatch_closes (s : Storage) (env : Env) (log : list Event) :
  (call s (env, CloseBatch)).2 = Success log ->
  exists b, batches s !! (length (batches s) - 1)%nat = Some b /\ closed b = false /\
    batches (step s (env, CloseBatch)) !! (length (batches s) - 1)%nat =
      Some {| Batch_id := Batch_id b; totalEncryptedAmount := totalEncryptedAmount b;
              closed := true |}.
Proof.
  unfold step. rewrite closeBatch_eq.
  destruct (negb _); [discriminate |]. destruct (paused s); [discriminate |].
  destruct (noOpenBatch (batches s)) eqn:Hn; [discriminate |].
  apply noOpenBatch_false in Hn as (bs0 & b & Hbs & Hc).
  rewrite Hbs, latest_index, lookup_latest. cbn.
  replace (length (bs0 ++ [b]) - 1)%nat with (length bs0)
    by (rewrite length_app; cbn; lia).
  intros _. exists b. rewrite lookup_latest, insert_latest, lookup_latest. auto.
Qed.

(** C5. Once a batch is closed, no sequence of transactions, whatever the
    entry points, the callers and the times, changes its record: identifier,
    aggregate ciphertext and closed flag stay as they are, and so does the
    fingerprint computed from the aggregate.  The batch closed by a
    successful [closeBatch] is in that situation from then on. *)
Theorem closed_batch_immutable :
  (forall (s : Storage) (txs : list (Env * Call)) (i : nat) (b : Batch),
     batches s !! i = Some b -> closed b = true ->
     batches (run s txs) !! i = Some b /\
     fingerprint (run s txs) i = fingerprint s i) /\
  (forall (s : Storage) (env : Env) (log : list Event) (txs : list (Env * Call)),
     (call s (env, CloseBatch)).2 = Success log ->
     let s1 := step s (env, CloseBatch) in
     let i := (length (batches s) - 1)%nat in
     exists b, batches s1 !! i = Some b /\ closed b = true /\
       batches (run s1 txs) !! i = Some b /\
       fingerprint (run s1 txs) i = fingerprint s1 i).
Proof.
  assert (Hmain : forall s txs i b, batches s !! i = Some b -> closed b = true ->
     batches (run s txs) !! i = Some b /\ fingerprint (run s txs) i = fingerprint s i).
  { intros s txs i b Hb Hc.
    pose proof (run_batches_closed s txs i b Hb Hc) as Hr.
    split; [exact Hr |]. unfold fingerprint. rewrite Hr, Hb. reflexivity. }
  split; [exact Hmain |].
  intros s env log txs Hok s1 i.
  destruct (closeBatch_closes s env log Hok) as (b & _ & _ & Hb1).
  eexists. split; [exact Hb1 |]. split; [reflexivity |].
  apply Hmain; [exact Hb1 | reflexivity].
Qed.

(** *** The decryption callback *)

Lemma myCallback_success (s : Storage) (env : Env) (r : Z) (c p : list Byte.byte)
    (log : list Event) :
  (call s (env, MyCallback r c p)).2 = Success log ->
  let ctx := readContext (decryptionContexts s) r in
  processed ctx = false /\
  (exists b, batches s !! Z.to_nat (batchId ctx) = Some b /\ closed b = true /\
     _hashCiphertexts [FHE_toBytes32 (totalEncryptedAmount b)] = stateHash ctx) /\
  FHE_checkSignatures r c p = true /\
  (exists totalAmount, abi_decode_uint256 c = Some totalAmount /\
     log = [DecryptionCompleted r (batchId ctx) totalAmount]) /\
  step s (env, MyCallback r c p) =
    set_decryptionContexts
      (<[r := {| batchId := batchId ctx; stateHash := stateHash ctx; processed := true |}]>
         (decryptionContexts s)) s.
Proof.
  unfold step. rewrite myCallback_eq. cbn zeta.
  destruct (processed _) eqn:Hp; [discriminate |].
  destruct (notClosedBatch _ _) eqn:Hn; [discriminate |].
  destruct (batches s !! _) as [b|] eqn:Hb; [| discriminate].
  destruct (_ =? _) eqn:Hh; cbn; [| discriminate].
  destruct (FHE_checkSignatures r c p) eqn:Hs; cbn; [| discriminate].
  destruct (abi_decode_uint256 c) as [t|] eqn:Hd; cbn; [| discriminate].
  intros [= <-]. repeat split; eauto.
  exists b. repeat split; auto.
  - unfold notClosedBatch in Hn. rewrite Hb in Hn.
    destruct (_ <=? _); [discriminate |]. destruct (closed b); [reflexivity | discriminate].
  - apply Z.eqb_eq. exact Hh.
Qed.

(** C2. When the context of [requestId] is already processed, the callback
    reverts with [ReplayAttempt]: the storage is the one before the call and
    no event is emitted, whatever cleartexts and proof are presented.  In
    particular a callback that follows a successful one for the same
    [requestId] is rejected in this way. *)
Theorem callback_replay_rejected :
  (forall (s : Storage) (env : Env) (r : Z) (c p : list Byte.byte),
     processed (readContext (decryptionContexts s) r) = true ->
     call s (env, MyCallback r c p) = (s, Reverted (Custom ReplayAttempt)) /\
     events (call s (env, MyCallback r c p)).2 = []) /\
  (forall (s : Storage) (env env' : Env) (r : Z) (c p c' p' : list Byte.byte)
          (log : list Event),
     (call s (env, MyCallback r c p)).2 = Success log ->
     let s1 := step s (env, MyCallback r c p) in
     call s1 (env', MyCallback r c' p') = (s1, Reverted (Custom ReplayAttempt)) /\
     events (call s1 (env', MyCallback r c' p')).2 = []).
Proof.
  assert (Hmain : forall s env r c p,
     processed (readContext (decryptionContexts s) r) = true ->
     call s (env, MyCallback r c p) = (s, Reverted (Custom ReplayAttempt)) /\
     events (call s (env, MyCallback r c p)).2 = []).
  { intros s env r c p Hp. rewrite myCallback_eq. cbn zeta. rewrite Hp. auto. }
  split; [exact Hmain |].
  intros s env env' r c p c' p' log Hok s1. apply Hmain.
  destruct (myCallback_success s env r c p log Hok) as (_ & _ & _ & _ & Hs1).
  subst s1. rewrite Hs1. cbn. unfold readContext. rewrite lookup_insert_eq. reflexivity.
Qed.

(** The flag [processed] is only ever set by a callback that succeeds. *)
Lemma myCallback_marks_processed (s : Storage) (env : Env) (r : Z) (c p : list Byte.byte) :
  processed (readContext (decryptionContexts s) r) = false ->
  processed (readContext (decryptionContexts (step s (env, MyCallback r c p))) r) = true ->
  exists log, (call s (env, MyCallback r c p)).2 = Success log.
Proof.
  intros Hold Hnew.
  destruct (call s (env, MyCallback r c p)).2 as [log | f] eqn:Hout; [eauto |].
  unfold step in Hnew. rewrite (revert_keeps_storage _ _ _ Hout) in Hnew. congruence.
Qed.

(** C3. For a stored, unprocessed context whose batch exists and is closed,
    the callback recomputes [_hashCiphertexts] over the batch's current
    aggregate, the function [requestBatchTotalDecryption] stored the hash
    with.  When the two hashes differ it reverts with [StateMismatch] and the
    storage is unchanged.  Whenever it succeeds, the hashes are equal, the
    proof has been verified, and the context is marked processed. *)
Theorem callback_state_binding :
  (forall (s : Storage) (env : Env) (r : Z) (c p : list Byte.byte)
          (ctx : DecryptionContext) (b : Batch),
     decryptionContexts s !! r = Some ctx -> processed ctx = false ->
     closedBatchAt (batches s) (batchId ctx) b ->
     (_hashCiphertexts [FHE_toBytes32 (totalEncryptedAmount b)] <> stateHash ctx ->
      call s (env, MyCallback r c p) = (s, Reverted (Custom StateMismatch))) /\
     (forall log, (call s (env, MyCallback r c p)).2 = Success log ->
      _hashCiphertexts [FHE_toBytes32 (totalEncryptedAmount b)] = stateHash ctx /\
      FHE_checkSignatures r c p = true /\
      processed (readContext (decryptionContexts (step s (env, MyCallback r c p))) r) = true) /\
     (processed (readContext (decryptionContexts (step s (env, MyCallback r c p))) r) = true ->
      _hashCiphertexts [FHE_toBytes32 (totalEncryptedAmount b)] = stateHash ctx /\
      FHE_checkSignatures r c p = true)) /\
  (forall (s : Storage) (env : Env) (bid : Z) (log : list Event),
     (call s (env, RequestBatchTotalDecryption bid)).2 = Success log ->
     exists b, batches s !! Z.to_nat bid = Some b /\
       decryptionContexts (step s (env, RequestBatchTotalDecryption bid))
         !! oracle_requestId env =
       Some {| batchId := bid;
               stateHash := _hashCiphertexts [FHE_toBytes32 (totalEncryptedAmount b)];
               processed := false |}).
Proof.
  split.
  - intros s env r c p ctx b Hctx Hp (Hi & Hb & Hc).
    assert (Hread : readContext (decryptionContexts s) r = ctx)
      by (unfold readContext; rewrite Hctx; reflexivity).
    assert (Hn : notClosedBatch (batches s) (batchId ctx) = false)
      by (apply notClosedBatch_false; [exact Hi | exists b; split; auto]).
    assert (Hsuccess : forall log, (call s (env, MyCallback r c p)).2 = Success log ->
      _hashCiphertexts [FHE_toBytes32 (totalEncryptedAmount b)] = stateHash ctx /\
      FHE_checkSignatures r c p = true /\
      processed (readContext (decryptionContexts (step s (env, MyCallback r c p))) r) = true).
    { intros log Hok.
      destruct (myCallback_success s env r c p log Hok)
        as (_ & (b' & Hb' & _ & Hh) & Hs & _ & Hs1).
      rewrite Hread in Hb', Hh. split; [congruence |]. split; [exact Hs |].
      rewrite Hs1. cbn. unfold readContext. rewrite lookup_insert_eq. reflexivity. }
    split; [| split; [exact Hsuccess |]].
    + intros Hne. rewrite myCallback_eq. cbn zeta. rewrite Hread, Hp, Hn, Hb.
      destruct (_ =? _) eqn:E; [apply Z.eqb_eq in E; contradiction | reflexivity].
    + intros Hnew.
      destruct (myCallback_marks_processed s env r c p) as (log & Hok);
        [rewrite Hread; exact Hp | exact Hnew |].
      destruct (Hsuccess log Hok) as (Hh & Hs & _). auto.
  - intros s env bid log. unfold step. rewrite requestBatchTotalDecryption_eq.
    destruct (paused s); [discriminate |].
    destruct (cooldownGate _ _ _); [discriminate |].
    destruct (notClosedBatch _ _); [discriminate |].
    destruct (batches s !! Z.to_nat bid) as [b|]; [| discriminate].
    intros _. exists b. split; [reflexivity |]. cbn. apply lookup_insert_eq.
Qed.

(** The cooldown has elapsed: [now >= last + cooldown], for a timestamp
    that is a [uint256]. *)
Lemma cooldownGate_elapsed (last cooldown now : Z) :
  now <= UINT256_MAX -> last + cooldown <= now -> cooldownGate last cooldown now = None.
Proof.
  intros Hmax Hle. unfold cooldownGate.
  destruct (last + cooldown <=? UINT256_MAX) eqn:E.
  - destruct (now <? last + cooldown) eqn:E'; [apply Z.ltb_lt in E'; lia | reflexivity].
  - apply Z.leb_gt in E. lia.
Qed.

Lemma cooldownGate_active (last cooldown now : Z) :
  now < last + cooldown ->
  exists f, cooldownGate last cooldown now = Some f /\
    (last + cooldown <= UINT256_MAX -> f = Custom CooldownActive) /\
    (UINT256_MAX < last + cooldown -> f = Panic 17).
Proof.
  intros Hlt. unfold cooldownGate.
  destruct (last + cooldown <=? UINT256_MAX) eqn:E.
  - apply Z.leb_le in E.
    destruct (now <? last + cooldown) eqn:E'; [| apply Z.ltb_ge in E'; lia].
    eexists. split; [reflexivity |]. split; [reflexivity | lia].
  - apply Z.leb_gt in E. eexists. split; [reflexivity |]. split; [lia | reflexivity].
Qed.

(** C4, as the contract has it.  With the system not paused and the caller's
    decryption cooldown elapsed, a request for a [batchId] that is not an
    existing closed batch reverts with [InvalidBatch] and the storage is
    unchanged; a request for an existing closed batch succeeds and stores,
    under the request id supplied by the oracle, the context made of the
    [batchId], the hash of the batch's aggregate handle and of the
    contract's address, and [processed = false]. *)
Theorem request_decryption_checks_batch (s : Storage) (env : Env) (bid : Z) :
  0 <= bid ->
  paused s = false ->
  block_timestamp env <= UINT256_MAX ->
  readUint (lastDecryptionRequestTime s) (msg_sender env) + cooldownSeconds s
    <= block_timestamp env ->
  ((~ exists b, closedBatchAt (batches s) bid b) ->
   call s (env, RequestBatchTotalDecryption bid) = (s, Reverted (Custom InvalidBatch))) /\
  (forall b, closedBatchAt (batches s) bid b ->
   let h := keccak256_abi_encode [FHE_toBytes32 (totalEncryptedAmount b)] this in
   call s (env, RequestBatchTotalDecryption bid) =
     (set_decryptionContexts
        (<[oracle_requestId env := {| batchId := bid; stateHash := h; processed := false |}]>
           (decryptionContexts s))
        (set_lastDecryptionRequestTime
           (<[msg_sender env := block_timestamp env]> (lastDecryptionRequestTime s)) s),
      Success [DecryptionRequested (oracle_requestId env) bid h])).
Proof.
  intros Hbid Hp Hmax Hcd.
  pose proof (cooldownGate_elapsed _ _ _ Hmax Hcd) as Hgate.
  split.
  - intros Hno. rewrite requestBatchTotalDecryption_eq, Hp, Hgate.
    destruct (notClosedBatch (batches s) bid) eqn:Hn; [reflexivity |].
    apply notClosedBatch_false in Hn; [contradiction | exact Hbid].
  - intros b Hb h. rewrite requestBatchTotalDecryption_eq, Hp, Hgate.
    assert (Hn : notClosedBatch (batches s) bid = false)
      by (apply notClosedBatch_false; [exact Hbid | exists b; exact Hb]).
    destruct Hb as (_ & Hb & _). rewrite Hn, Hb. reflexivity.
Qed.

(** C7, as the contract has it.  The contract has no error for an unknown
    request: a [requestId] under which no context was stored reads as the
    zero context (batch 0, hash 0, not processed).  The callback then
    reverts with [InvalidBatch] when batch 0 does not exist or is not
    closed, and with [StateMismatch] when batch 0 is closed and its
    fingerprint is not zero; in both cases the storage is unchanged. *)
Theorem callback_unknown_request (s : Storage) (env : Env) (r : Z) (c p : list Byte.byte) :
  decryptionContexts s !! r = None ->
  ((~ exists b, closedBatchAt (batches s) 0 b) ->
   call s (env, MyCallback r c p) = (s, Reverted (Custom InvalidBatch))) /\
  (forall b, closedBatchAt (batches s) 0 b ->
   _hashCiphertexts [FHE_toBytes32 (totalEncryptedAmount b)] <> 0 ->
   call s (env, MyCallback r c p) = (s, Reverted (Custom StateMismatch))).
Proof.
  intros Hctx.
  assert (Hread : readContext (decryptionContexts s) r = zeroContext)
    by (unfold readContext; rewrite Hctx; reflexivity).
  split.
  - intros Hno. rewrite myCallback_eq. cbn zeta. rewrite Hread. cbn.
    destruct (notClosedBatch (batches s) 0) eqn:Hn; [reflexivity |].
    apply notClosedBatch_false in Hn; [contradiction | lia].
  - intros b Hb Hne. rewrite myCallback_eq. cbn zeta. rewrite Hread. cbn.
    assert (Hn : notClosedBatch (batches s) 0 = false)
      by (apply notClosedBatch_false; [lia | exists b; exact Hb]).
    destruct Hb as (_ & Hb & _). cbn in Hb. rewrite Hn, Hb.
    destruct (_ =? 0) eqn:E; [apply Z.eqb_eq in E; contradiction | reflexivity].
Qed.

(** *** The pause switch *)

(** C8, as the contract has it.  While [paused] is set, [openBatch],
    [submitPayment] and [closeBatch] called by a provider and
    [requestBatchTotalDecryption] called by anyone revert with [Paused] and
    leave the storage unchanged; a caller who is not a provider is turned
    away by [onlyProvider] first, with [NotProvider].  The getters answer as
    they do when the flag is clear. *)
Theorem paused_blocks_gated_calls (s : Storage) :
  paused s = true ->
  (forall env c, providerGated c = true ->
     call s (env, c) =
       (s, Reverted (Custom (if readBool (providers s) (msg_sender env)
                             then Paused else NotProvider)))) /\
  (forall env bid,
     call s (env, RequestBatchTotalDecryption bid) = (s, Reverted (Custom Paused))) /\
  (forall g, g <> get_paused -> read s g = read (set_paused false s) g) /\
  read s get_paused = Some (VBool true).
Proof.
  intros Hp. repeat split.
  - intros env c Hc. destruct c; try discriminate.
    + rewrite openBatch_eq, Hp. destruct (readBool _ _); reflexivity.
    + rewrite submitPayment_eq, Hp. destruct (readBool _ _); reflexivity.
    + rewrite closeBatch_eq, Hp. destruct (readBool _ _); reflexivity.
  - intros env bid. rewrite requestBatchTotalDecryption_eq, Hp. reflexivity.
  - intros g Hg. destruct g; try reflexivity. contradiction.
  - cbn. rewrite Hp. reflexivity.
Qed.

(** *** The submission cooldown *)

Lemma cooldown_gate_on_submit (s : Storage) (env : Env) (v : Z) :
  readBool (providers s) (msg_sender env) = true ->
  paused s = false ->
  noOpenBatch (batches s) = false ->
  let last := readUint (lastSubmissionTime s) (msg_sender env) in
  let elapsed := block_timestamp env - last in
  (elapsed < cooldownSeconds s ->
     exists f, call s (env, SubmitPayment v) = (s, Reverted f) /\
       (last + cooldownSeconds s <= UINT256_MAX -> f = Custom CooldownActive)) /\
  (cooldownSeconds s <= elapsed -> block_timestamp env <= UINT256_MAX ->
     exists log, (call s (env, SubmitPayment v)).2 = Success log /\
       readUint (lastSubmissionTime (step s (env, SubmitPayment v))) (msg_sender env)
         = block_timestamp env).
Proof.
  intros Hprov Hp Hopen last elapsed. subst elapsed. split.
  - intros Hlt.
    destruct (cooldownGate_active last (cooldownSeconds s) (block_timestamp env))
      as (f & Hg & Hf & _); [lia |].
    exists f. rewrite submitPayment_eq, Hprov, Hp. cbn. fold last. rewrite Hg. auto.
  - intros Hge Hmax.
    assert (Hg : cooldownGate last (cooldownSeconds s) (block_timestamp env) = None)
      by (apply cooldownGate_elapsed; lia).
    unfold step. rewrite submitPayment_eq, Hprov, Hp. cbn. fold last. rewrite Hg, Hopen.
    apply noOpenBatch_false in Hopen as (bs0 & b & Hbs & Hc).
    rewrite Hbs, latest_index, lookup_latest. cbn.
    eexists. split; [reflexivity |]. unfold readUint. rewrite lookup_insert_eq. reflexivity.
Qed.

(** After a successful [openBatch] or [submitPayment] the caller is a
    provider, the system is not paused, the latest batch is open and the
    caller's [lastSubmissionTime] is the time of the call. *)
Lemma submission_sets_clock (s : Storage) (env : Env) (c : Call) (log : list Event) :
  submissionClass c = true ->
  (call s (env, c)).2 = Success log ->
  let s1 := step s (env, c) in
  readBool (providers s1) (msg_sender env) = true /\
  paused s1 = false /\
  noOpenBatch (batches s1) = false /\
  readUint (lastSubmissionTime s1) (msg_sender env) = block_timestamp env /\
  cooldownSeconds s1 = cooldownSeconds s.
Proof.
  intros Hc. unfold step. destruct c; try discriminate.
  - rewrite openBatch_eq.
    destruct (readBool _ _) eqn:Hprov; cbn; [| discriminate].
    destruct (paused s) eqn:Hp; [discriminate |].
    destruct (cooldownGate _ _ _); [discriminate |]. intros _. cbn.
    rewrite noOpenBatch_snoc. unfold readUint. rewrite lookup_insert_eq. auto.
  - rewrite submitPayment_eq.
    destruct (readBool _ _) eqn:Hprov; cbn; [| discriminate].
    destruct (paused s) eqn:Hp; [discriminate |].
    destruct (cooldownGate _ _ _); [discriminate |].
    destruct (noOpenBatch (batches s)) eqn:Hn; [discriminate |].
    apply noOpenBatch_false in Hn as (bs0 & b & Hbs & Hcl).
    rewrite Hbs, latest_index, lookup_latest, insert_latest. intros _. cbn.
    rewrite noOpenBatch_snoc. unfold readUint. rewrite lookup_insert_eq. auto.
Qed.

(** C9, as the contract has it.  Provider [P], system not paused, latest
    batch open.  A [submitPayment] at a time less than [cooldownSeconds]
    after [lastSubmissionTime[P]] is rejected and the storage is unchanged;
    the error is [CooldownActive] whenever [lastSubmissionTime[P] +
    cooldownSeconds] is a [uint256].  At a time at least [cooldownSeconds]
    after it, the call succeeds and [lastSubmissionTime[P]] becomes the
    current time.  So it is for the [submitPayment] that follows a
    successful [openBatch] or [submitPayment] of the same provider, the
    elapsed time being counted from that call. *)
Theorem submit_cooldown :
  (forall (s : Storage) (env : Env) (v : Z),
     readBool (providers s) (msg_sender env) = true ->
     paused s = false ->
     noOpenBatch (batches s) = false ->
     let last := readUint (lastSubmissionTime s) (msg_sender env) in
     let elapsed := block_timestamp env - last in
     (elapsed < cooldownSeconds s ->
        exists f, call s (env, SubmitPayment v) = (s, Reverted f) /\
          (last + cooldownSeconds s <= UINT256_MAX -> f = Custom CooldownActive)) /\
     (cooldownSeconds s <= elapsed -> block_timestamp env <= UINT256_MAX ->
        exists log, (call s (env, SubmitPayment v)).2 = Success log /\
          readUint (lastSubmissionTime (step s (env, SubmitPayment v))) (msg_sender env)
            = block_timestamp env)) /\
  (forall (s : Storage) (env1 env2 : Env) (c1 : Call) (log1 : list Event) (v : Z),
     submissionClass c1 = true ->
     (call s (env1, c1)).2 = Success log1 ->
     msg_sender env2 = msg_sender env1 ->
     let s1 := step s (env1, c1) in
     let elapsed := block_timestamp env2 - block_timestamp env1 in
     (elapsed < cooldownSeconds s1 ->
        exists f, call s1 (env2, SubmitPayment v) = (s1, Reverted f) /\
          (block_timestamp env1 + cooldownSeconds s1 <= UINT256_MAX ->
           f = Custom CooldownActive)) /\
     (cooldownSeconds s1 <= elapsed -> block_timestamp env2 <= UINT256_MAX ->
        exists log, (call s1 (env2, SubmitPayment v)).2 = Success log /\
          readUint (lastSubmissionTime (step s1 (env2, SubmitPayment v))) (msg_sender env2)
            = block_timestamp env2)).
Proof.
  split; [exact cooldown_gate_on_submit |].
  intros s env1 env2 c1 log1 v Hc Hok Hsender s1 elapsed.
  destruct (submission_sets_clock s env1 c1 log1 Hc Hok)
    as (Hprov & Hp & Hopen & Hlast & _).
  fold s1 in Hprov, Hp, Hopen, Hlast. rewrite <- Hsender in Hprov, Hlast.
  pose proof (cooldown_gate_on_submit s1 env2 v Hprov Hp Hopen) as Hstate.
  cbn zeta in Hstate. rewrite Hlast in Hstate. exact Hstate.
Qed.

(** *** Open batches *)

Lemma earlierClosed_atMostOneOpen (bs : list Batch) :
  earlierClosed bs -> atMostOneOpen bs.
Proof.
  intros He i j bi bj Hi Hj Hci Hcj.
  pose proof (lookup_lt_Some _ _ _ Hi) as Hli.
  pose proof (lookup_lt_Some _ _ _ Hj) as Hlj.
  destruct (decide (S i < length bs)%nat) as [Hlt | Hge].
  { rewrite (He i bi Hi Hlt) in Hci. discriminate. }
  destruct (decide (S j < length bs)%nat) as [Hlt | Hge'].
  { rewrite (He j bj Hj Hlt) in Hcj. discriminate. }
  lia.
Qed.

Lemma step_length_other (s : Storage) (env : Env) (c : Call) :
  isOpenBatch c = false -> length (batches (step s (env, c))) = length (batches s).
Proof.
  intros Hc. unfold step. destruct c; try discriminate.
  - rewrite transferOwnership_eq. split_test; reflexivity.
  - rewrite addProvider_eq. split_test; reflexivity.
  - rewrite removeProvider_eq. split_test; reflexivity.
  - rewrite setPaused_eq. split_test; reflexivity.
  - rewrite setCooldownSeconds_eq. split_test; reflexivity.
  - rewrite submitPayment_eq. repeat split_test; try reflexivity. apply length_insert.
  - rewrite closeBatch_eq. repeat split_test; try reflexivity. apply length_insert.
  - rewrite requestBatchTotalDecryption_eq. repeat split_test; reflexivity.
  - rewrite myCallback_eq. cbn zeta. repeat split_test; reflexivity.
Qed.

Lemma step_earlierClosed (s : Storage) (tx : Env * Call) :
  earlierClosed (batches s) ->
  (isOpenBatch tx.2 = true -> noOpenBatch (batches s) = true) ->
  earlierClosed (batches (step s tx)).
Proof.
  intros He Hd.
  pose proof (step_batches s tx) as Hs.
  assert (Hlen : isOpenBatch tx.2 = false ->
                 length (batches (step s tx)) = length (batches s))
    by (destruct tx as [env c]; apply step_length_other).
  remember (batches s) as bs eqn:Ebs. remember (batches (step s tx)) as bs' eqn:Ebs'.
  clear Ebs Ebs'.
  destruct Hs as [bs | bs b0 H0 | bs b0 b' H0 Hid].
  - exact He.
  - destruct (isOpenBatch tx.2) eqn:Eo.
    + specialize (Hd eq_refl). intros i b Hb Hlt.
      rewrite length_app in Hlt. cbn in Hlt.
      rewrite lookup_app_l in Hb by lia.
      destruct (decide (S i < length bs)%nat) as [Hlt' | Hge]; [eauto |].
      destruct bs as [|x bs0 _] using rev_ind; [cbn in Hlt; lia |].
      rewrite noOpenBatch_snoc in Hd. rewrite length_app in Hlt, Hge. cbn in Hlt, Hge.
      replace i with (length bs0) in Hb by lia.
      rewrite lookup_latest in Hb. congruence.
    + specialize (Hlen eq_refl). rewrite length_app in Hlen. cbn in Hlen. lia.
  - intros i b Hb Hlt. rewrite length_app in Hlt. cbn in Hlt.
    rewrite lookup_app_l in Hb by lia.
    apply (He i b).
    + rewrite lookup_app_l by lia. exact Hb.
    + rewrite length_app. cbn. lia.
Qed.

Lemma run_earlierClosed (s : Storage) (txs : list (Env * Call)) :
  earlierClosed (batches s) -> closeBeforeOpen s txs = true ->
  earlierClosed (batches (run s txs)).
Proof.
  revert s. induction txs as [|tx txs IH]; intros s He Hd; [exact He |].
  cbn [closeBeforeOpen] in Hd. apply andb_true_iff in Hd as [Hd1 Hd2].
  rewrite run_cons. apply IH; [| exact Hd2].
  apply step_earlierClosed; [exact He |].
  intros Ho. rewrite Ho in Hd1. exact Hd1.
Qed.

(** C6, as the contract has it.  [openBatch] appends a batch without looking
    at the latest one, so several batches can be open.  In every state
    reached from deployment by a trace in which each [openBatch] is issued
    when no batch exists or the latest batch is closed, at most one batch is
    open, and it is the latest one. *)
Theorem one_open_batch_when_closed_before_open (deploy : Env) (txs : list (Env * Call)) :
  closeBeforeOpen (constructor deploy) txs = true ->
  atMostOneOpen (batches (run (constructor deploy) txs)) /\
  earlierClosed (batches (run (constructor deploy) txs)).
Proof.
  intros Hd.
  assert (He : earlierClosed (batches (run (constructor deploy) txs))).
  { apply run_earlierClosed; [| exact Hd]. intros i b Hb. cbn in Hb. discriminate. }
  split; [apply earlierClosed_atMostOneOpen |]; exact He.
Qed.

(** C10, as the contract has it.  A batch that is open when [openBatch]
    succeeds is from then on an earlier batch: under every later trace its
    record stays as it is (open, same aggregate), every
    [requestBatchTotalDecryption] against it reverts and leaves the storage
    unchanged, with [InvalidBatch] once the pause and cooldown gates are
    passed, and no callback completes a decryption for it.  A transaction
    that closes a batch closes the latest one. *)
Theorem orphaned_batch_stays_open :
  (forall (s : Storage) (env0 : Env) (log0 : list Event) (i : nat) (b : Batch)
          (txs : list (Env * Call)),
     batches s !! i = Some b -> closed b = false ->
     (call s (env0, OpenBatch)).2 = Success log0 ->
     let s' := run (step s (env0, OpenBatch)) txs in
     batches s' !! i = Some b /\
     (forall env, exists f,
        call s' (env, RequestBatchTotalDecryption (Z.of_nat i)) = (s', Reverted f) /\
        (paused s' = false ->
         cooldownGate (readUint (lastDecryptionRequestTime s') (msg_sender env))
           (cooldownSeconds s') (block_timestamp env) = None ->
         f = Custom InvalidBatch)) /\
     (forall env r c p log,
        (call s' (env, MyCallback r c p)).2 = Success log ->
        forall r' total, DecryptionCompleted r' (Z.of_nat i) total ∉ log)) /\
  (forall (s : Storage) (tx : Env * Call) (j : nat) (bj bj' : Batch),
     batches s !! j = Some bj -> closed bj = false ->
     batches (step s tx) !! j = Some bj' -> closed bj' = true ->
     S j = length (batches s)).
Proof.
  split.
  - intros s env0 log0 i b txs Hb Hc Hok s'.
    assert (Hb1 : batches (step s (env0, OpenBatch)) !! i = Some b /\
                  (S i < length (batches (step s (env0, OpenBatch))))%nat).
    { revert Hok. unfold step. rewrite openBatch_eq.
      destruct (negb _); [discriminate |]. destruct (paused s); [discriminate |].
      destruct (cooldownGate _ _ _); [discriminate |]. intros _. cbn.
      pose proof (lookup_lt_Some _ _ _ Hb) as Hlt.
      rewrite length_app. cbn. split; [| lia].
      apply lookup_app_l_Some. exact Hb. }
    destruct Hb1 as [Hb1 Hlt1].
    destruct (run_batches_earlier _ txs i b Hb1 Hlt1) as [Hb' _]. fold s' in Hb'.
    assert (Hn : notClosedBatch (batches s') (Z.of_nat i) = true)
      by (apply (notClosedBatch_open _ _ b); [rewrite Nat2Z.id; exact Hb' | exact Hc]).
    split; [exact Hb' |]. split.
    + intros env. rewrite requestBatchTotalDecryption_eq.
      destruct (paused s'); [eexists; split; [reflexivity | discriminate] |].
      destruct (cooldownGate _ _ _) as [f|];
        [eexists; split; [reflexivity | discriminate] |].
      rewrite Hn. eexists; split; [reflexivity | auto].
    + intros env r c p log Hcb r' total Hin.
      destruct (myCallback_success s' env r c p log Hcb)
        as (_ & (b' & Hb'' & Hc' & _) & _ & (t & _ & ->) & _).
      apply list_elem_of_singleton in Hin. injection Hin as _ Hid _.
      rewrite <- Hid, Nat2Z.id in Hb''. congruence.
  - intros s tx j bj bj' Hb Hc Hb' Hc'.
    pose proof (lookup_lt_Some _ _ _ Hb) as Hlt.
    destruct (decide (S j < length (batches s))%nat) as [Hearlier | Hlast]; [| lia].
    destruct (batches_step_earlier _ _ _ _ (step_batches s tx) Hb Hearlier) as [Hsame _].
    congruence.
Qed.

(** *** The aggregate of a batch *)

Lemma sum32_range (a : Z) (vs : list Z) :
  0 <= a < UINT32_MOD -> 0 <= foldl add32 a vs < UINT32_MOD.
Proof.
  revert a. induction vs as [|v vs IH]; intros a Ha; [exact Ha |].
  cbn. apply IH. unfold add32. apply Z.mod_pos_bound. reflexivity.
Qed.

Lemma foldl_add32_mod (a : Z) (vs : list Z) :
  foldl add32 a vs mod UINT32_MOD = (a + sumZ vs) mod UINT32_MOD.
Proof.
  revert a. induction vs as [|v vs IH]; intros a.
  - cbn. rewrite Z.add_0_r. reflexivity.
  - change (sumZ (v :: vs)) with (v + sumZ vs). cbn [foldl].
    rewrite IH. unfold add32. rewrite Zplus_mod_idemp_l.
    f_equal. lia.
Qed.

Lemma sum32_sumZ (vs : list Z) : sum32 vs = sumZ vs mod UINT32_MOD.
Proof.
  unfold sum32. replace (sumZ vs) with (0 + sumZ vs) by lia.
  rewrite <- (foldl_add32_mod 0 vs).
  symmetry. apply Z.mod_small. apply sum32_range. unfold UINT32_MOD. lia.
Qed.

Lemma sumZ_perm (l1 l2 : list Z) : Permutation l1 l2 -> sumZ l1 = sumZ l2.
Proof.
  unfold sumZ.
  induction 1 as [| x l l' _ IH | x y l | l l' l'' _ IH1 _ IH2]; cbn [foldr] in *; lia.
Qed.

Lemma sum32_perm (l1 l2 : list Z) : Permutation l1 l2 -> sum32 l1 = sum32 l2.
Proof.
  intros Hp. rewrite !sum32_sumZ, (sumZ_perm l1 l2 Hp). reflexivity.
Qed.

(** One transaction changes the aggregate of batch [n] by its contribution
    to that batch, and in no other way. *)
Lemma step_aggregate (s : Storage) (tx : Env * Call) (n : nat) (b : Batch) :
  batches s !! n = Some b ->
  exists b', batches (step s tx) !! n = Some b' /\
    totalEncryptedAmount b' =
      match contribution n s tx with
      | Some v => FHE_add (totalEncryptedAmount b) (FHE_asEuint32 v)
      | None => totalEncryptedAmount b
      end.
Proof.
  intros Hb. destruct tx as [env c]. unfold contribution, step. cbn [snd].
  destruct c.
  - rewrite transferOwnership_eq. split_test; eauto.
  - rewrite addProvider_eq. split_test; eauto.
  - rewrite removeProvider_eq. split_test; eauto.
  - rewrite setPaused_eq. split_test; eauto.
  - rewrite setCooldownSeconds_eq. split_test; eauto.
  - rewrite openBatch_eq. repeat split_test; eauto.
    exists b. split; [apply lookup_app_l_Some; exact Hb | reflexivity].
  - rewrite submitPayment_eq.
    destruct (negb _); [eauto |]. destruct (paused s); [eauto |].
    destruct (cooldownGate _ _ _); [eauto |].
    destruct (noOpenBatch (batches s)) eqn:Hn; [eauto |].
    apply noOpenBatch_false in Hn as (bs0 & b0 & Hbs & Hc).
    rewrite Hbs in Hb |- *. rewrite latest_index, lookup_latest, insert_latest.
    cbn [fst snd succeeds andb batches set_batches].
    rewrite length_app. cbn [length].
    destruct (decide (n = length bs0)) as [-> | Hne].
    + rewrite lookup_latest in Hb |- *. injection Hb as <-.
      replace (length bs0 + 1 =? S (length bs0))%nat with true
        by (symmetry; apply Nat.eqb_eq; lia).
      eexists. split; reflexivity.
    + pose proof (lookup_lt_Some _ _ _ Hb) as Hlt.
      rewrite length_app in Hlt. cbn in Hlt.
      rewrite lookup_app_l in Hb |- * by lia.
      replace (length bs0 + 1 =? S n)%nat with false
        by (symmetry; apply Nat.eqb_neq; lia).
      eauto.
  - rewrite closeBatch_eq.
    destruct (negb _); [eauto |]. destruct (paused s); [eauto |].
    destruct (noOpenBatch (batches s)) eqn:Hn; [eauto |].
    apply noOpenBatch_false in Hn as (bs0 & b0 & Hbs & Hc).
    rewrite Hbs in Hb |- *. rewrite latest_index, lookup_latest, insert_latest.
    cbn [fst batches set_batches].
    destruct (decide (n = length bs0)) as [-> | Hne].
    + rewrite lookup_latest in Hb |- *. injection Hb as <-.
      eexists. split; reflexivity.
    + pose proof (lookup_lt_Some _ _ _ Hb) as Hlt.
      rewrite length_app in Hlt. cbn in Hlt.
      rewrite lookup_app_l in Hb |- * by lia. eauto.
  - rewrite requestBatchTotalDecryption_eq. repeat split_test; eauto.
  - rewrite myCallback_eq. cbn zeta. repeat split_test; eauto.
Qed.

(** Along a trace the aggregate of batch [n] accumulates the contributions
    to that batch. *)
Lemma run_aggregate (decrypt : Z -> Z) (Hc : FHE_correct decrypt)
    (txs : list (Env * Call)) :
  Forall wellTyped txs ->
  forall (s : Storage) (n : nat) (b : Batch),
  batches s !! n = Some b ->
  exists b', batches (run s txs) !! n = Some b' /\
    decrypt (totalEncryptedAmount b') =
      foldl add32 (decrypt (totalEncryptedAmount b)) (contributions n s txs).
Proof.
  induction 1 as [| tx rest Hv _ IH]; intros s n b Hb.
  - exists b. auto.
  - rewrite run_cons. cbn [contributions].
    destruct (step_aggregate s tx n b Hb) as (b1 & Hb1 & Ht1).
    destruct (IH (step s tx) n b1 Hb1) as (b' & Hb' & Hd).
    exists b'. split; [exact Hb' |]. rewrite Hd, Ht1.
    unfold contribution in *. unfold wellTyped in Hv.
    destruct tx as [env c]. cbn [snd] in *.
    destruct c; try reflexivity.
    destruct (_ && _); [| reflexivity].
    cbn [foldl]. rewrite decrypt_add, decrypt_asEuint32 by exact Hv. reflexivity.
Qed.

(** A trace of successful [submitPayment] calls, issued while batch [n] is
    the latest batch, contributes all its amounts to batch [n]. *)
Lemma contributions_successfulSubmissions (n : nat) (txs : list (Env * Call)) :
  forall s : Storage,
  length (batches s) = S n -> successfulSubmissions s txs = true ->
  contributions n s txs = amounts txs.
Proof.
  induction txs as [| tx rest IH]; intros s Hlen Hs; [reflexivity |].
  destruct tx as [env c]. cbn [successfulSubmissions snd] in Hs.
  destruct c as [| | | | | | v | | |]; try discriminate.
  apply andb_true_iff in Hs as [Hs1 Hs2].
  change (amounts ((env, SubmitPayment v) :: rest)) with (v :: amounts rest).
  cbn [contributions]. unfold contribution. cbn [snd].
  rewrite Hs1, Hlen, Nat.eqb_refl. cbn [andb].
  f_equal. apply IH; [| exact Hs2].
  rewrite step_length_other by reflexivity. exact Hlen.
Qed.

(** C1. Open a batch, then let any trace follow: [submitPayment] calls
    from any providers at any times, accepted or not, and any other calls
    in between.  The aggregate of that batch decrypts to the sum of the
    plaintexts contributed to it, the sum being the 32-bit sum that
    homomorphic addition on [euint32] computes: their integer sum modulo
    2^32.  Two traces whose contributions are the same up to order give the
    same total.  For a trace of successful [submitPayment] calls the
    contributions are the submitted amounts. *)
Theorem batch_aggregate_is_sum (decrypt : Z -> Z) (Hc : FHE_correct decrypt)
    (s : Storage) (env0 : Env) (log0 : list Event) (txs : list (Env * Call)) :
  (call s (env0, OpenBatch)).2 = Success log0 ->
  Forall wellTyped txs ->
  let s1 := step s (env0, OpenBatch) in
  let n := length (batches s) in
  exists b, batches (run s1 txs) !! n = Some b /\
    decrypt (totalEncryptedAmount b) = sum32 (contributions n s1 txs) /\
    decrypt (totalEncryptedAmount b) = sumZ (contributions n s1 txs) mod UINT32_MOD /\
    (successfulSubmissions s1 txs = true -> contributions n s1 txs = amounts txs) /\
    (forall txs2, Forall wellTyped txs2 ->
       Permutation (contributions n s1 txs) (contributions n s1 txs2) ->
       exists b2, batches (run s1 txs2) !! n = Some b2 /\
         decrypt (totalEncryptedAmount b2) = decrypt (totalEncryptedAmount b)).
Proof.
  intros Hok Hv s1 n.
  assert (Hs1 : batches s1 = batches s ++
            [{| Batch_id := Z.of_nat (length (batches s));
                totalEncryptedAmount := FHE_asEuint32 0; closed := false |}]).
  { revert Hok. subst s1. unfold step. rewrite openBatch_eq.
    destruct (negb _); [discriminate |]. destruct (paused s); [discriminate |].
    destruct (cooldownGate _ _ _); [discriminate | reflexivity]. }
  assert (Hzero : decrypt (FHE_asEuint32 0) = 0)
    by (apply decrypt_asEuint32; unfold is_uint32, UINT32_MOD; lia).
  assert (Hgen : forall ts, Forall wellTyped ts ->
     exists b, batches (run s1 ts) !! n = Some b /\
       decrypt (totalEncryptedAmount b) = sum32 (contributions n s1 ts)).
  { intros ts Hts.
    destruct (run_aggregate decrypt Hc ts Hts s1 n _
                ltac:(rewrite Hs1; apply lookup_latest)) as (b & Hb & Hd).
    exists b. split; [exact Hb |]. rewrite Hd. cbn [totalEncryptedAmount].
    rewrite Hzero. reflexivity. }
  destruct (Hgen txs Hv) as (b & Hb & Hd).
  exists b. split; [exact Hb |]. split; [exact Hd |]. split; [| split].
  - rewrite Hd. apply sum32_sumZ.
  - apply contributions_successfulSubmissions.
    rewrite Hs1, length_app. cbn. lia.
  - intros txs2 Hv2 Hperm.
    destruct (Hgen txs2 Hv2) as (b2 & Hb2 & Hd2).
    exists b2. split; [exact Hb2 |]. rewrite Hd, Hd2. symmetry. apply sum32_perm. exact Hperm.
Qed.

(** ** Further properties of the contract *)

(** Case analysis on the entry point, each call replaced by what it does. *)
Ltac entry_points c :=
  destruct c;
  rewrite ?transferOwnership_eq, ?addProvider_eq, ?removeProvider_eq, ?setPaused_eq,
    ?setCooldownSeconds_eq, ?openBatch_eq, ?submitPayment_eq, ?closeBatch_eq,
    ?requestBatchTotalDecryption_eq, ?myCallback_eq;
  cbn zeta.

(** *** Administration *)

Lemma step_admin_frame (s : Storage) (env : Env) (c : Call) :
  msg_sender env <> owner s ->
  owner (step s (env, c)) = owner s /\
  providers (step s (env, c)) = providers s /\
  paused (step s (env, c)) = paused s /\
  cooldownSeconds (step s (env, c)) = cooldownSeconds s.
Proof.
  intros Hne. apply Z.eqb_neq in Hne. unfold step.
  entry_points c; rewrite ?Hne; cbn; repeat split_test; cbn; auto.
Qed.

(** X1. A trace in which no transaction is sent by the owner leaves the
    owner, the set of providers, the pause flag and the cooldown as they
    are, whatever entry points it calls. *)
Theorem only_owner_administers (s : Storage) (txs : list (Env * Call)) :
  Forall (fun tx => msg_sender tx.1 <> owner s) txs ->
  owner (run s txs) = owner s /\
  providers (run s txs) = providers s /\
  paused (run s txs) = paused s /\
  cooldownSeconds (run s txs) = cooldownSeconds s.
Proof.
  revert s. induction txs as [| [env c] rest IH]; intros s Hall; [auto |].
  apply Forall_cons in Hall as [Hne Hrest]. cbn [fst] in Hne.
  destruct (step_admin_frame s env c Hne) as (Ho & Hpr & Hpa & Hcd).
  rewrite run_cons.
  destruct (IH (step s (env, c))) as (Ho' & Hpr' & Hpa' & Hcd').
  { rewrite Ho. exact Hrest. }
  rewrite Ho', Hpr', Hpa', Hcd'. auto.
Qed.

Lemma admin_by_owner (s : Storage) (env : Env) (c : Call) :
  adminCall c = true -> msg_sender env = owner s ->
  succeeds (call s (env, c)).2 = true.
Proof.
  intros Hc Ho. apply Z.eqb_eq in Ho.
  entry_points c; try discriminate; rewrite Ho; reflexivity.
Qed.

Lemma admin_by_other (s : Storage) (env : Env) (c : Call) :
  adminCall c = true -> msg_sender env <> owner s ->
  call s (env, c) = (s, Reverted (Custom NotOwner)).
Proof.
  intros Hc Hne. apply Z.eqb_neq in Hne.
  entry_points c; try discriminate; rewrite Hne; reflexivity.
Qed.

(** X2. A successful [transferOwnership] changes the owner and nothing
    else, with no test on the new address.  From then on the new owner is
    let through every administrative call, whatever the pause flag and the
    time, and the previous owner, when it is not the new one, is turned
    away with [NotOwner]. *)
Theorem ownership_handover (s : Storage) (env : Env) (a : Z) (log : list Event) :
  (call s (env, TransferOwnership a)).2 = Success log ->
  let s1 := step s (env, TransferOwnership a) in
  s1 = set_owner a s /\
  log = [OwnershipTransferred (msg_sender env) a] /\
  (forall env' c, adminCall c = true -> msg_sender env' = a ->
     succeeds (call s1 (env', c)).2 = true) /\
  (forall env' c, adminCall c = true -> msg_sender env' = msg_sender env ->
     a <> msg_sender env ->
     call s1 (env', c) = (s1, Reverted (Custom NotOwner))).
Proof.
  unfold step. rewrite transferOwnership_eq.
  destruct (msg_sender env =? owner s) eqn:Ho; cbn; [| discriminate].
  apply Z.eqb_eq in Ho. intros [= <-]. rewrite Ho.
  split; [reflexivity |]. split; [reflexivity |]. split.
  - intros env' c Hc Ha. apply (admin_by_owner (set_owner a s) env' c Hc). exact Ha.
  - intros env' c Hc Hs Hne.
    apply (admin_by_other (set_owner a s) env' c Hc). cbn. congruence.
Qed.

(** X3. The registry of providers, written by the owner: [addProvider p]
    makes [p] a provider and [removeProvider p] makes it none, the standing
    of every other address is untouched, each call done twice gives the
    storage of doing it once, and the later of an add and a remove wins. *)
Theorem provider_registry (s : Storage) (env : Env) (p : Z) :
  msg_sender env = owner s ->
  let added := step s (env, AddProvider p) in
  let removed := step s (env, RemoveProvider p) in
  readBool (providers added) p = true /\
  readBool (providers removed) p = false /\
  (forall q, q <> p ->
     readBool (providers added) q = readBool (providers s) q /\
     readBool (providers removed) q = readBool (providers s) q) /\
  step added (env, AddProvider p) = added /\
  step removed (env, RemoveProvider p) = removed /\
  readBool (providers (step added (env, RemoveProvider p))) p = false /\
  readBool (providers (step removed (env, AddProvider p))) p = true.
Proof.
  intros Ho added removed. apply Z.eqb_eq in Ho.
  assert (Ha : added = set_providers (<[p := true]> (providers s)) s)
    by (subst added; unfold step; rewrite addProvider_eq, Ho; reflexivity).
  assert (Hr : removed = set_providers (<[p := false]> (providers s)) s)
    by (subst removed; unfold step; rewrite removeProvider_eq, Ho; reflexivity).
  rewrite Ha, Hr. unfold step.
  rewrite !addProvider_eq, !removeProvider_eq. cbn [owner set_providers]. rewrite Ho.
  cbn [negb fst]. unfold readBool, set_providers. cbn.
  rewrite !insert_insert_eq, !lookup_insert_eq.
  repeat split; try reflexivity.
  all: rewrite lookup_insert_ne by congruence; reflexivity.
Qed.

Lemma step_provider_false (s : Storage) (tx : Env * Call) (p : Z) :
  readBool (providers s) p = false -> admits p tx = false ->
  readBool (providers (step s tx)) p = false.
Proof.
  intros Hp Ha. destruct tx as [env c]. unfold step, admits in *. cbn [snd] in Ha.
  entry_points c; repeat split_test; cbn; try exact Hp.
  - unfold readBool. rewrite lookup_insert_ne; [exact Hp |].
    intros ->. rewrite Z.eqb_refl in Ha. discriminate.
  - unfold readBool. destruct (decide (p0 = p)) as [-> | Hne].
    + rewrite lookup_insert_eq. reflexivity.
    + rewrite lookup_insert_ne by exact Hne. exact Hp.
Qed.

(** X4. An address that is not a provider stays none under every trace
    without an [addProvider] for it, and in the state so reached its
    [openBatch], [submitPayment] and [closeBatch] revert with [NotProvider]
    and leave the storage unchanged.  So it is for a provider the owner has
    removed. *)
Theorem removed_provider_locked_out (s : Storage) (txs : list (Env * Call)) (p : Z) :
  readBool (providers s) p = false ->
  Forall (fun tx => admits p tx = false) txs ->
  let s' := run s txs in
  readBool (providers s') p = false /\
  (forall env c, msg_sender env = p -> providerGated c = true ->
     call s' (env, c) = (s', Reverted (Custom NotProvider))).
Proof.
  intros Hp Hall s'.
  assert (Hp' : readBool (providers s') p = false).
  { subst s'. revert s Hp. induction Hall as [| tx rest Ha _ IH]; intros s Hp; [exact Hp |].
    rewrite run_cons. apply IH. apply step_provider_false; assumption. }
  split; [exact Hp' |].
  intros env c <- Hc. destruct c; try discriminate.
  - rewrite openBatch_eq, Hp'. reflexivity.
  - rewrite submitPayment_eq, Hp'. reflexivity.
  - rewrite closeBatch_eq, Hp'. reflexivity.
Qed.

(** *** Pausing *)

Lemma paused_step_frozen (s : Storage) (tx : Env * Call) :
  paused s = true -> pauseGated tx.2 = true -> step s tx = s.
Proof.
  intros Hp Hc. destruct tx as [env c]. unfold step. cbn [snd] in Hc.
  destruct c; try discriminate.
  - rewrite openBatch_eq, Hp. destruct (negb _); reflexivity.
  - rewrite submitPayment_eq, Hp. destruct (negb _); reflexivity.
  - rewrite closeBatch_eq, Hp. destruct (negb _); reflexivity.
  - rewrite requestBatchTotalDecryption_eq, Hp. reflexivity.
Qed.

Lemma paused_run_frozen (s : Storage) (txs : list (Env * Call)) :
  paused s = true -> Forall (fun tx => pauseGated tx.2 = true) txs -> run s txs = s.
Proof.
  intros Hp Hall. revert s Hp.
  induction Hall as [| tx rest Hc _ IH]; intros s Hp; [reflexivity |].
  rewrite run_cons, (paused_step_frozen s tx Hp Hc). apply IH. exact Hp.
Qed.

Lemma set_paused_back (s : Storage) :
  paused s = false -> set_paused false (set_paused true s) = s.
Proof. destruct s. cbn. intros ->. reflexivity. Qed.

(** X5. Pausing is lossless.  The owner pauses, any number of [openBatch],
    [submitPayment], [closeBatch] and [requestBatchTotalDecryption] calls
    follow, from anyone at any time, the owner unpauses: the storage is the
    one before the pause, cooldown clocks included. *)
Theorem pause_is_lossless (s : Storage) (env1 env2 : Env) (txs : list (Env * Call)) :
  msg_sender env1 = owner s -> msg_sender env2 = owner s ->
  paused s = false ->
  Forall (fun tx => pauseGated tx.2 = true) txs ->
  run s ((env1, SetPaused true) :: txs ++ [(env2, SetPaused false)]) = s.
Proof.
  intros Ho1 Ho2 Hp Hall. apply Z.eqb_eq in Ho1, Ho2.
  rewrite run_cons. unfold run. rewrite foldl_app. fold (run (step s (env1, SetPaused true)) txs).
  assert (Hs1 : step s (env1, SetPaused true) = set_paused true s)
    by (unfold step; rewrite setPaused_eq, Ho1; reflexivity).
  rewrite Hs1, (paused_run_frozen (set_paused true s) txs eq_refl Hall). cbn [foldl].
  unfold step. rewrite setPaused_eq. cbn [owner set_paused]. rewrite Ho2. cbn.
  apply set_paused_back. exact Hp.
Qed.

(** *** Deployment *)

(** X6. In a freshly deployed contract the only calls that succeed are the
    administrative calls of the deployer: the deployer owns the contract
    and is no provider, there is no batch and no context. *)
Theorem fresh_contract_admits_admin_only (deploy env : Env) (c : Call) :
  succeeds (call (constructor deploy) (env, c)).2 = true ->
  adminCall c = true /\ msg_sender env = msg_sender deploy.
Proof.
  entry_points c; cbn; unfold readBool, readContext; rewrite ?lookup_empty; cbn.
  1-5: destruct (msg_sender env =? msg_sender deploy) eqn:E; cbn;
       [intros _; split; [reflexivity | apply Z.eqb_eq; exact E] | discriminate].
  1-3: discriminate.
  - destruct (cooldownGate _ _ _); [discriminate |].
    unfold notClosedBatch. rewrite lookup_nil.
    destruct (_ <=? batch); discriminate.
  - discriminate.
Qed.

(** *** The ledger of payments *)

Lemma step_payments (s : Storage) (tx : Env * Call) :
  payments (step s tx) =
  payments s ++ match ledgerEntry s tx with
                | Some p => [p]
                | None => []
                end.
Proof.
  destruct tx as [env c]. unfold ledgerEntry, step. cbn [fst snd].
  entry_points c; repeat split_test; cbn; rewrite ?app_nil_r; reflexivity.
Qed.

Lemma run_payments (s : Storage) (txs : list (Env * Call)) :
  payments (run s txs) = payments s ++ ledgerEntries s txs.
Proof.
  revert s. induction txs as [| tx rest IH]; intros s.
  - cbn. rewrite app_nil_r. reflexivity.
  - rewrite run_cons, IH, step_payments. cbn [ledgerEntries].
    destruct (ledgerEntry s tx); rewrite <- app_assoc; reflexivity.
Qed.

(** X7. The ledger is append-only.  After any trace the array of payments
    is the one before it followed by one entry for each [submitPayment] of
    the trace that succeeded, in order, holding the sender, the handle of
    the amount and the time of the call; an entry once written is never
    changed or removed, by any entry point. *)
Theorem ledger_append_only (s : Storage) (txs : list (Env * Call)) :
  payments (run s txs) = payments s ++ ledgerEntries s txs /\
  (forall i p, payments s !! i = Some p -> payments (run s txs) !! i = Some p) /\
  (length (payments s) <= length (payments (run s txs)))%nat.
Proof.
  pose proof (run_payments s txs) as Hrun. split; [exact Hrun |]. split.
  - intros i p Hp. rewrite Hrun. apply lookup_app_l_Some. exact Hp.
  - rewrite Hrun, length_app. lia.
Qed.

Lemma submitPayment_success (s : Storage) (env : Env) (v : Z) (log : list Event) :
  (call s (env, SubmitPayment v)).2 = Success log ->
  exists bs b, batches s = bs ++ [b] /\ closed b = false /\
    log = [PaymentSubmitted (Z.of_nat (length (payments s))) (Batch_id b)
             (msg_sender env) (FHE_asEuint32 v)] /\
    step s (env, SubmitPayment v) =
      set_batches
        (bs ++ [{| Batch_id := Batch_id b;
                   totalEncryptedAmount :=
                     FHE_add (totalEncryptedAmount b) (FHE_asEuint32 v);
                   closed := false |}])
        (set_payments
           (payments s ++
              [{| provider := msg_sender env;
                  encryptedAmount := FHE_asEuint32 v;
                  submissionTimestamp := block_timestamp env |}])
           (set_lastSubmissionTime
              (<[msg_sender env := block_timestamp env]> (lastSubmissionTime s)) s)).
Proof.
  unfold step. rewrite submitPayment_eq.
  destruct (negb _); [discriminate |]. destruct (paused s); [discriminate |].
  destruct (cooldownGate _ _ _); [discriminate |].
  destruct (noOpenBatch (batches s)) eqn:Hn; [discriminate |].
  apply noOpenBatch_false in Hn as (bs & b & Hbs & Hc).
  rewrite Hbs, latest_index, lookup_latest, insert_latest. cbn [fst snd].
  intros [= <-]. exists bs, b. rewrite Hc.
  repeat split; try reflexivity.
  rewrite length_app. cbn [length]. do 2 f_equal. lia.
Qed.

(** X8. The event of a payment names its entry.  A successful
    [submitPayment] emits exactly [PaymentSubmitted], whose payment id is
    the position at which the new entry is stored, whose batch id is the
    identifier of the latest batch, open before the call, and whose amount
    is the handle added into that batch; the ledger grows by that entry
    alone. *)
Theorem payment_event_names_entry (s : Storage) (env : Env) (v : Z) (log : list Event) :
  (call s (env, SubmitPayment v)).2 = Success log ->
  let s1 := step s (env, SubmitPayment v) in
  let entry := {| provider := msg_sender env;
                  encryptedAmount := FHE_asEuint32 v;
                  submissionTimestamp := block_timestamp env |} in
  exists b b',
    batches s !! (length (batches s) - 1)%nat = Some b /\ closed b = false /\
    log = [PaymentSubmitted (Z.of_nat (length (payments s))) (Batch_id b)
             (msg_sender env) (FHE_asEuint32 v)] /\
    payments s1 = payments s ++ [entry] /\
    payments s1 !! length (payments s) = Some entry /\
    batches s1 !! (length (batches s) - 1)%nat = Some b' /\
    totalEncryptedAmount b' = FHE_add (totalEncryptedAmount b) (FHE_asEuint32 v).
Proof.
  intros Hok s1 entry.
  destruct (submitPayment_success s env v log Hok) as (bs & b & Hbs & Hc & Hlog & Hs1).
  subst s1. rewrite Hs1, Hbs. cbn [payments batches set_batches set_payments].
  replace (length (bs ++ [b]) - 1)%nat with (length bs)
    by (rewrite length_app; cbn; lia).
  eexists b, _. rewrite !lookup_latest.
  repeat split; try reflexivity; try assumption.
  rewrite lookup_app_r by lia.
  replace (length (payments s) - length (payments s))%nat with 0%nat by lia. reflexivity.
Qed.

(** *** Batch identifiers *)

Lemma idsMatch_snoc (bs : list Batch) (b : Batch) :
  idsMatch bs -> Batch_id b = Z.of_nat (length bs) -> idsMatch (bs ++ [b]).
Proof.
  intros Hids Hb i x Hx.
  destruct (decide (i < length bs)%nat) as [Hlt | Hge].
  - rewrite lookup_app_l in Hx by exact Hlt. apply Hids. exact Hx.
  - pose proof (lookup_lt_Some _ _ _ Hx) as Hlen.
    rewrite length_app in Hlen. cbn in Hlen.
    replace i with (length bs) in * by lia.
    rewrite lookup_latest in Hx. congruence.
Qed.

Lemma step_idsMatch (s : Storage) (tx : Env * Call) :
  idsMatch (batches s) -> idsMatch (batches (step s tx)).
Proof.
  intros Hids. destruct tx as [env c].
  destruct (isOpenBatch c) eqn:Ho.
  - destruct c; try discriminate. unfold step. rewrite openBatch_eq.
    repeat split_test; cbn; try exact Hids.
    apply idsMatch_snoc; [exact Hids | reflexivity].
  - pose proof (step_length_other s env c Ho) as Hlen.
    pose proof (step_batches s (env, c)) as Hs.
    remember (batches s) as bs eqn:Ebs. remember (batches (step s (env, c))) as bs' eqn:Ebs'.
    clear Ebs Ebs'.
    destruct Hs as [bs | bs b0 H0 | bs b0 b' H0 Hid]; [exact Hids | |].
    + rewrite length_app in Hlen. cbn in Hlen. lia.
    + apply idsMatch_snoc.
      * intros i x Hx. apply Hids. apply lookup_app_l_Some. exact Hx.
      * rewrite Hid. apply Hids. apply lookup_latest.
Qed.

(** X9. In every state reached from deployment the identifier of a batch
    is its position in the array, so a batch id names one batch; a
    successful [openBatch] announces, with [BatchOpened], the position at
    which it stores the new batch, open and with the encryption of zero as
    aggregate. *)
Theorem batch_id_is_position :
  (forall s, reachable s -> idsMatch (batches s)) /\
  (forall s env log, (call s (env, OpenBatch)).2 = Success log ->
     log = [BatchOpened (Z.of_nat (length (batches s)))] /\
     batches (step s (env, OpenBatch)) !! length (batches s) =
       Some {| Batch_id := Z.of_nat (length (batches s));
               totalEncryptedAmount := FHE_asEuint32 0; closed := false |}).
Proof.
  split.
  - intros s (deploy & txs & ->).
    assert (Hgen : forall s0, idsMatch (batches s0) -> idsMatch (batches (run s0 txs))).
    { induction txs as [| tx rest IH]; intros s0 H0; [exact H0 |].
      rewrite run_cons. apply IH. apply step_idsMatch. exact H0. }
    apply Hgen. intros i b Hb. cbn in Hb. discriminate.
  - intros s env log. unfold step. rewrite openBatch_eq.
    destruct (negb _); [discriminate |]. destruct (paused s); [discriminate |].
    destruct (cooldownGate _ _ _); [discriminate |].
    intros [= <-]. split; [reflexivity |]. cbn. apply lookup_latest.
Qed.

(** *** Decryption contexts *)

Lemma notClosedBatch_inv (bs : list Batch) (i : Z) :
  notClosedBatch bs i = false ->
  i < Z.of_nat (length bs) /\
  exists b, bs !! Z.to_nat i = Some b /\ closed b = true.
Proof.
  unfold notClosedBatch.
  destruct (Z.of_nat (length bs) <=? i) eqn:E; [discriminate |].
  apply Z.leb_gt in E.
  destruct (bs !! Z.to_nat i) as [b|]; [| discriminate].
  destruct (closed b) eqn:Hc; [| discriminate].
  intros _. split; [exact E |]. exists b. auto.
Qed.

Lemma notClosedBatch_step (bs bs' : list Batch) (i : Z) :
  batches_step bs bs' -> notClosedBatch bs i = false ->
  notClosedBatch bs' i = false /\ bs' !! Z.to_nat i = bs !! Z.to_nat i.
Proof.
  intros Hs Hn. destruct (notClosedBatch_inv bs i Hn) as (Hlt & b & Hb & Hc).
  pose proof (batches_step_closed bs bs' _ b Hs Hb Hc) as Hb'.
  pose proof (batches_step_length bs bs' Hs) as Hlen.
  split; [| congruence].
  unfold notClosedBatch. rewrite Hb', Hc.
  destruct (Z.of_nat (length bs') <=? i) eqn:E; [apply Z.leb_le in E; lia | reflexivity].
Qed.

(** How one transaction can change the map of contexts: not at all, by a
    successful request, or by a successful callback. *)
Lemma step_contexts (s : Storage) (tx : Env * Call) :
  decryptionContexts (step s tx) = decryptionContexts s \/
  (exists bid b, tx.2 = RequestBatchTotalDecryption bid /\
     notClosedBatch (batches s) bid = false /\
     batches s !! Z.to_nat bid = Some b /\
     batches (step s tx) = batches s /\
     decryptionContexts (step s tx) =
       <[oracle_requestId tx.1 :=
           {| batchId := bid;
              stateHash := _hashCiphertexts [FHE_toBytes32 (totalEncryptedAmount b)];
              processed := false |}]> (decryptionContexts s)) \/
  (exists r c p b, tx.2 = MyCallback r c p /\
     let ctx := readContext (decryptionContexts s) r in
     processed ctx = false /\
     notClosedBatch (batches s) (batchId ctx) = false /\
     batches s !! Z.to_nat (batchId ctx) = Some b /\
     _hashCiphertexts [FHE_toBytes32 (totalEncryptedAmount b)] = stateHash ctx /\
     batches (step s tx) = batches s /\
     decryptionContexts (step s tx) =
       <[r := {| batchId := batchId ctx; stateHash := stateHash ctx; processed := true |}]>
         (decryptionContexts s)).
Proof.
  destruct tx as [env c]. unfold step. cbn [fst snd].
  entry_points c; repeat split_test; cbn; auto.
  - right. left. eexists _, _. repeat split; eauto.
  - right. right. eexists _, _, _, _. repeat split; eauto.
    match goal with
    | E : negb (_ =? _) = false |- _ =>
        apply negb_false_iff in E; apply Z.eqb_eq in E; exact E
    end.
Qed.

Lemma contextBound_step (s : Storage) (tx : Env * Call) (ctx : DecryptionContext) :
  contextBound s ctx -> contextBound (step s tx) ctx.
Proof.
  intros (Hn & b & Hb & Hh).
  destruct (notClosedBatch_step _ _ _ (step_batches s tx) Hn) as (Hn' & Hb').
  split; [exact Hn' |]. exists b. rewrite Hb'. auto.
Qed.

Lemma step_contextsBound (s : Storage) (tx : Env * Call) :
  contextsBound s -> contextsBound (step s tx).
Proof.
  intros Hall r ctx Hctx.
  destruct (step_contexts s tx) as [Hsame | [Hreq | Hcb]].
  - apply contextBound_step. apply (Hall r). rewrite <- Hsame. exact Hctx.
  - destruct Hreq as (bid & b & _ & Hn & Hb & Hbs & Hmap).
    rewrite Hmap in Hctx.
    destruct (decide (oracle_requestId tx.1 = r)) as [Heq | Hne].
    + subst r. rewrite lookup_insert_eq in Hctx. injection Hctx as <-.
      unfold contextBound. rewrite Hbs. cbn. split; [exact Hn |]. exists b. auto.
    + rewrite lookup_insert_ne in Hctx by exact Hne.
      apply contextBound_step. apply (Hall r). exact Hctx.
  - destruct Hcb as (r0 & c & p & b & _ & _ & Hn & Hb & Hh & Hbs & Hmap).
    rewrite Hmap in Hctx.
    destruct (decide (r0 = r)) as [Heq | Hne].
    + subst r0. rewrite lookup_insert_eq in Hctx. injection Hctx as <-.
      unfold contextBound. rewrite Hbs. cbn. split; [exact Hn |]. exists b. auto.
    + rewrite lookup_insert_ne in Hctx by exact Hne.
      apply contextBound_step. apply (Hall r). exact Hctx.
Qed.

(** X10. In every state reached from deployment each stored context is
    bound to the storage: its batch exists and is closed, and its hash is
    the current fingerprint of that batch.  Hence the callback for a stored,
    unprocessed request never fails on the batch test or on the hash test:
    its outcome is decided by the proof and by the decoding of the
    cleartexts alone. *)
Theorem stored_contexts_stay_bound (s : Storage) :
  reachable s ->
  contextsBound s /\
  (forall env r c p ctx,
     decryptionContexts s !! r = Some ctx -> processed ctx = false ->
     call s (env, MyCallback r c p) =
       if negb (FHE_checkSignatures r c p) then (s, Reverted (Custom InvalidProof))
       else match abi_decode_uint256 c with
            | None => (s, Reverted DecodeFailure)
            | Some totalAmount =>
                (set_decryptionContexts
                   (<[r := {| batchId := batchId ctx; stateHash := stateHash ctx;
                              processed := true |}]> (decryptionContexts s)) s,
                 Success [DecryptionCompleted r (batchId ctx) totalAmount])
            end).
Proof.
  intros (deploy & txs & ->).
  assert (Hbound : contextsBound (run (constructor deploy) txs)).
  { assert (Hgen : forall s0, contextsBound s0 -> contextsBound (run s0 txs)).
    { induction txs as [| tx rest IH]; intros s0 H0; [exact H0 |].
      rewrite run_cons. apply IH. apply step_contextsBound. exact H0. }
    apply Hgen. intros r ctx Hctx. cbn in Hctx. rewrite lookup_empty in Hctx. discriminate. }
  split; [exact Hbound |].
  intros env r c p ctx Hctx Hp.
  destruct (Hbound r ctx Hctx) as (Hn & b & Hb & Hh).
  assert (Hread : readContext (decryptionContexts (run (constructor deploy) txs)) r = ctx)
    by (unfold readContext; rewrite Hctx; reflexivity).
  rewrite myCallback_eq. cbn zeta. rewrite Hread, Hp, Hn, Hb, <- Hh, Z.eqb_refl.
  reflexivity.
Qed.

Lemma step_context_kept (s : Storage) (tx : Env * Call) (r : Z) (ctx : DecryptionContext) :
  decryptionContexts s !! r = Some ctx -> reissues r tx = false ->
  exists ctx', decryptionContexts (step s tx) !! r = Some ctx' /\
    batchId ctx' = batchId ctx /\ stateHash ctx' = stateHash ctx /\
    (processed ctx = true -> processed ctx' = true).
Proof.
  intros Hctx Hre.
  destruct (step_contexts s tx) as [Hsame | [Hreq | Hcb]].
  - exists ctx. rewrite Hsame. auto.
  - destruct Hreq as (bid & b & Htx & _ & _ & _ & Hmap).
    unfold reissues in Hre. rewrite Htx in Hre. apply Z.eqb_neq in Hre.
    exists ctx. rewrite Hmap, lookup_insert_ne by exact Hre. auto.
  - destruct Hcb as (r0 & c & p & b & _ & _ & _ & _ & _ & _ & Hmap).
    rewrite Hmap. destruct (decide (r0 = r)) as [Heq | Hne].
    + subst r0. rewrite lookup_insert_eq. eexists. split; [reflexivity |].
      unfold readContext. rewrite Hctx. cbn. auto.
    + exists ctx. rewrite lookup_insert_ne by exact Hne. auto.
Qed.

(** X11. A stored context keeps its batch and its hash, and stays
    processed once it is, under every trace in which the oracle hands out
    its request id to no further request; the callback for a processed
    request is then rejected with [ReplayAttempt] ever after.  A successful
    request whose id the oracle has used before replaces the context and
    clears [processed]. *)
Theorem context_fixed_unless_reissued :
  (forall (s : Storage) (txs : list (Env * Call)) (r : Z) (ctx : DecryptionContext),
     decryptionContexts s !! r = Some ctx ->
     Forall (fun tx => reissues r tx = false) txs ->
     let s' := run s txs in
     exists ctx', decryptionContexts s' !! r = Some ctx' /\
       batchId ctx' = batchId ctx /\ stateHash ctx' = stateHash ctx /\
       (processed ctx = true ->
        processed ctx' = true /\
        forall env c p,
          call s' (env, MyCallback r c p) = (s', Reverted (Custom ReplayAttempt)))) /\
  (forall (s : Storage) (env : Env) (bid : Z) (log : list Event),
     (call s (env, RequestBatchTotalDecryption bid)).2 = Success log ->
     processed (readContext (decryptionContexts (step s (env, RequestBatchTotalDecryption bid)))
                  (oracle_requestId env)) = false).
Proof.
  split.
  - intros s txs r ctx Hctx Hall s'.
    assert (Hkept : exists ctx', decryptionContexts s' !! r = Some ctx' /\
       batchId ctx' = batchId ctx /\ stateHash ctx' = stateHash ctx /\
       (processed ctx = true -> processed ctx' = true)).
    { subst s'. revert s ctx Hctx.
      induction Hall as [| tx rest Hre _ IH]; intros s ctx Hctx; [exists ctx; auto |].
      rewrite run_cons.
      destruct (step_context_kept s tx r ctx Hctx Hre) as (ctx1 & Hctx1 & Hb1 & Hh1 & Hp1).
      destruct (IH _ _ Hctx1) as (ctx' & Hctx' & Hb' & Hh' & Hp').
      exists ctx'. repeat split; [exact Hctx' | congruence | congruence | auto]. }
    destruct Hkept as (ctx' & Hctx' & Hb' & Hh' & Hp').
    exists ctx'. split; [exact Hctx' |]. split; [exact Hb' |]. split; [exact Hh' |].
    intros Hp. split; [exact (Hp' Hp) |].
    assert (Hread : readContext (decryptionContexts s') r = ctx')
      by (unfold readContext; rewrite Hctx'; reflexivity).
    intros env c p. rewrite myCallback_eq. cbn zeta. rewrite Hread, (Hp' Hp). reflexivity.
  - intros s env bid log. unfold step. rewrite requestBatchTotalDecryption_eq.
    destruct (paused s); [discriminate |].
    destruct (cooldownGate _ _ _); [discriminate |].
    destruct (notClosedBatch _ _); [discriminate |].
    destruct (batches s !! Z.to_nat bid); [| discriminate].
    intros _. cbn. unfold readContext. rewrite lookup_insert_eq. reflexivity.
Qed.

(** *** The two cooldown clocks *)

Lemma step_submission_clock (s : Storage) (tx : Env * Call) (a : Z) :
  submissionBy a tx = false ->
  readUint (lastSubmissionTime (step s tx)) a = readUint (lastSubmissionTime s) a.
Proof.
  destruct tx as [env c]. unfold submissionBy, step. cbn [fst snd]. intros Hby.
  entry_points c; repeat split_test; cbn; try reflexivity.
  all: cbn in Hby; apply Z.eqb_neq in Hby;
       unfold readUint; rewrite lookup_insert_ne by exact Hby; reflexivity.
Qed.

Lemma step_request_clock (s : Storage) (tx : Env * Call) (a : Z) :
  requestBy a tx = false ->
  readUint (lastDecryptionRequestTime (step s tx)) a
    = readUint (lastDecryptionRequestTime s) a.
Proof.
  destruct tx as [env c]. unfold requestBy, step. cbn [fst snd]. intros Hby.
  entry_points c; repeat split_test; cbn; try reflexivity.
  all: cbn in Hby; apply Z.eqb_neq in Hby;
       unfold readUint; rewrite lookup_insert_ne by exact Hby; reflexivity.
Qed.

(** X12. The two cooldown clocks are separate and personal.  The
    submission clock of an address is moved by nothing but that address's
    own [openBatch] and [submitPayment]; its decryption clock by nothing but
    its own [requestBatchTotalDecryption].  Neither other callers, nor
    [closeBatch], nor the callback, nor the owner's administration, nor a
    call rated by the other clock delays it. *)
Theorem cooldown_clocks_are_personal (s : Storage) (txs : list (Env * Call)) (a : Z) :
  (Forall (fun tx => submissionBy a tx = false) txs ->
   readUint (lastSubmissionTime (run s txs)) a = readUint (lastSubmissionTime s) a) /\
  (Forall (fun tx => requestBy a tx = false) txs ->
   readUint (lastDecryptionRequestTime (run s txs)) a
     = readUint (lastDecryptionRequestTime s) a).
Proof.
  split; intros Hall; revert s; induction Hall as [| tx rest Hby _ IH]; intros s;
    try reflexivity; rewrite run_cons, IH.
  - apply step_submission_clock. exact Hby.
  - apply step_request_clock. exact Hby.
Qed.

(** *** Closing a batch *)

(** X13. [closeBatch] is not rated.  After a successful [openBatch] or
    [submitPayment], any provider closes the latest batch at any time, even
    in the same second: the call emits [BatchClosed] with the identifier and
    the aggregate of that batch and moves no clock.  With no batch, or with
    the latest batch closed, neither [submitPayment] nor [closeBatch] ever
    succeeds, and the storage is unchanged. *)
Theorem close_batch_lifecycle :
  (forall (s : Storage) (env1 env2 : Env) (c1 : Call) (log1 : list Event),
     submissionClass c1 = true ->
     (call s (env1, c1)).2 = Success log1 ->
     let s1 := step s (env1, c1) in
     readBool (providers s1) (msg_sender env2) = true ->
     exists b, batches s1 !! (length (batches s1) - 1)%nat = Some b /\
       (call s1 (env2, CloseBatch)).2
         = Success [BatchClosed (Batch_id b) (totalEncryptedAmount b)] /\
       noOpenBatch (batches (step s1 (env2, CloseBatch))) = true /\
       lastSubmissionTime (step s1 (env2, CloseBatch)) = lastSubmissionTime s1) /\
  (forall (s : Storage) (env : Env) (v : Z),
     noOpenBatch (batches s) = true ->
     succeeds (call s (env, SubmitPayment v)).2 = false /\
     succeeds (call s (env, CloseBatch)).2 = false /\
     step s (env, SubmitPayment v) = s /\
     step s (env, CloseBatch) = s).
Proof.
  split.
  - intros s env1 env2 c1 log1 Hc Hok s1 Hprov.
    destruct (submission_sets_clock s env1 c1 log1 Hc Hok) as (_ & Hp & Hopen & _).
    fold s1 in Hp, Hopen. unfold step. rewrite closeBatch_eq, Hprov, Hp, Hopen.
    apply noOpenBatch_false in Hopen as (bs & b & Hbs & Hcl).
    rewrite Hbs, latest_index, lookup_latest, insert_latest.
    replace (length (bs ++ [b]) - 1)%nat with (length bs)
      by (rewrite length_app; cbn; lia).
    rewrite lookup_latest. cbn. exists b. rewrite noOpenBatch_snoc. auto.
  - intros s env v Hn. unfold step. rewrite submitPayment_eq, closeBatch_eq, Hn.
    destruct (negb _); cbn; [auto |]. destruct (paused s); cbn; [auto |].
    destruct (cooldownGate _ _ _); cbn; auto.
Qed.

(** *** The decryption cooldown *)

Lemma request_closed_batch (s : Storage) (env : Env) (bid : Z) :
  paused s = false ->
  cooldownGate (readUint (lastDecryptionRequestTime s) (msg_sender env))
    (cooldownSeconds s) (block_timestamp env) = None ->
  0 <= bid -> (exists b, closedBatchAt (batches s) bid b) ->
  succeeds (call s (env, RequestBatchTotalDecryption bid)).2 = true.
Proof.
  intros Hp Hg Hbid Hb.
  assert (Hn : notClosedBatch (batches s) bid = false)
    by (apply notClosedBatch_false; assumption).
  destruct Hb as (b & _ & Hb & _).
  rewrite requestBatchTotalDecryption_eq, Hp, Hg, Hn, Hb. reflexivity.
Qed.

(** X14. The decryption cooldown.  After a successful request by a
    caller, a further request by the same caller less than
    [cooldownSeconds] later is rejected and the storage is unchanged (with
    [CooldownActive] when the deadline fits in a [uint256]); at least
    [cooldownSeconds] later a request for a closed batch succeeds.  A
    request rejected with [InvalidBatch] does not start the cooldown: the
    caller can request a closed batch in the same second. *)
Theorem request_cooldown :
  (forall (s : Storage) (env1 env2 : Env) (bid1 bid2 : Z) (log1 : list Event),
     (call s (env1, RequestBatchTotalDecryption bid1)).2 = Success log1 ->
     msg_sender env2 = msg_sender env1 ->
     let s1 := step s (env1, RequestBatchTotalDecryption bid1) in
     let elapsed := block_timestamp env2 - block_timestamp env1 in
     (elapsed < cooldownSeconds s1 ->
        exists f, call s1 (env2, RequestBatchTotalDecryption bid2) = (s1, Reverted f) /\
          (block_timestamp env1 + cooldownSeconds s1 <= UINT256_MAX ->
           f = Custom CooldownActive)) /\
     (cooldownSeconds s1 <= elapsed -> block_timestamp env2 <= UINT256_MAX ->
      0 <= bid2 -> (exists b, closedBatchAt (batches s1) bid2 b) ->
      succeeds (call s1 (env2, RequestBatchTotalDecryption bid2)).2 = true)) /\
  (forall (s : Storage) (env env' : Env) (bid bid' : Z),
     call s (env, RequestBatchTotalDecryption bid) = (s, Reverted (Custom InvalidBatch)) ->
     msg_sender env' = msg_sender env -> block_timestamp env' = block_timestamp env ->
     0 <= bid' -> (exists b, closedBatchAt (batches s) bid' b) ->
     succeeds (call s (env', RequestBatchTotalDecryption bid')).2 = true).
Proof.
  split.
  - intros s env1 env2 bid1 bid2 log1 Hok Hsender s1 elapsed.
    assert (Hs1 : paused s1 = false /\
              readUint (lastDecryptionRequestTime s1) (msg_sender env2)
                = block_timestamp env1).
    { subst s1. revert Hok. unfold step. rewrite requestBatchTotalDecryption_eq.
      destruct (paused s) eqn:Hp; [discriminate |].
      destruct (cooldownGate _ _ _); [discriminate |].
      destruct (notClosedBatch _ _); [discriminate |].
      destruct (batches s !! Z.to_nat bid1); [| discriminate].
      intros _. cbn. split; [exact Hp |].
      unfold readUint. rewrite Hsender, lookup_insert_eq. reflexivity. }
    destruct Hs1 as [Hp Hlast]. subst elapsed. split.
    + intros Hlt.
      destruct (cooldownGate_active (block_timestamp env1) (cooldownSeconds s1)
                  (block_timestamp env2)) as (f & Hg & Hf & _); [lia |].
      exists f. rewrite requestBatchTotalDecryption_eq, Hp, Hlast, Hg. auto.
    + intros Hge Hmax Hbid Hb. apply request_closed_batch; try assumption.
      rewrite Hlast. apply cooldownGate_elapsed; lia.
  - intros s env env' bid bid' Hcall Hsender Htime Hbid Hb.
    rewrite requestBatchTotalDecryption_eq in Hcall.
    destruct (paused s) eqn:Hp; [discriminate |].
    destruct (cooldownGate _ _ _) as [f|] eqn:Hg.
    { injection Hcall as Hf. subst f. unfold cooldownGate in Hg.
      destruct (_ <=? _); [destruct (_ <? _) |]; discriminate. }
    apply request_closed_batch; try assumption.
    rewrite Hsender, Htime. exact Hg.
Qed.

(** *** The ledger and the batches add up *)

Lemma sumZ_app (l1 l2 : list Z) : sumZ (l1 ++ l2) = sumZ l1 + sumZ l2.
Proof.
  unfold sumZ. induction l1 as [| x l1 IH]; cbn [foldr app]; [reflexivity |].
  rewrite IH. lia.
Qed.

Lemma batchesTotal_snoc (decrypt : Z -> Z) (bs : list Batch) (b : Batch) :
  batchesTotal decrypt (bs ++ [b])
    = batchesTotal decrypt bs + decrypt (totalEncryptedAmount b).
Proof.
  unfold batchesTotal. rewrite map_app, sumZ_app. cbn. unfold sumZ. cbn. lia.
Qed.

Lemma ledgerTotal_snoc (decrypt : Z -> Z) (ps : list Payment) (p : Payment) :
  ledgerTotal decrypt (ps ++ [p]) = ledgerTotal decrypt ps + decrypt (encryptedAmount p).
Proof.
  unfold ledgerTotal. rewrite map_app, sumZ_app. cbn. unfold sumZ. cbn. lia.
Qed.

Lemma step_balanced (decrypt : Z -> Z) (Hc : FHE_correct decrypt)
    (s : Storage) (tx : Env * Call) :
  decrypt (FHE_asEuint32 0) = 0 ->
  balanced decrypt s -> balanced decrypt (step s tx).
Proof.
  intros Hzero [k Hk]. destruct tx as [env c]. unfold balanced, step.
  destruct c as [| | | | | | v | | |].
  - rewrite transferOwnership_eq. split_test; exists k; exact Hk.
  - rewrite addProvider_eq. split_test; exists k; exact Hk.
  - rewrite removeProvider_eq. split_test; exists k; exact Hk.
  - rewrite setPaused_eq. split_test; exists k; exact Hk.
  - rewrite setCooldownSeconds_eq. split_test; exists k; exact Hk.
  - rewrite openBatch_eq.
    destruct (negb _); [exists k; exact Hk |]. destruct (paused s); [exists k; exact Hk |].
    destruct (cooldownGate _ _ _); [exists k; exact Hk |].
    exists k. cbn [fst batches payments set_batches set_lastSubmissionTime].
    rewrite batchesTotal_snoc. cbn [totalEncryptedAmount]. rewrite Hzero. lia.
  - rewrite submitPayment_eq.
    destruct (negb _); [exists k; exact Hk |]. destruct (paused s); [exists k; exact Hk |].
    destruct (cooldownGate _ _ _); [exists k; exact Hk |].
    destruct (noOpenBatch (batches s)) eqn:Hn; [exists k; exact Hk |].
    apply noOpenBatch_false in Hn as (bs & b & Hbs & Hcl).
    rewrite Hbs in Hk |- *. rewrite latest_index, lookup_latest, insert_latest.
    cbn [fst batches payments set_batches set_payments set_lastSubmissionTime].
    rewrite batchesTotal_snoc in Hk |- *. rewrite ledgerTotal_snoc.
    cbn [totalEncryptedAmount encryptedAmount]. rewrite decrypt_add. unfold add32.
    set (d := decrypt (totalEncryptedAmount b)) in *.
    set (x := decrypt (FHE_asEuint32 v)).
    exists (k - (d + x) / UINT32_MOD).
    pose proof (Z.div_mod (d + x) UINT32_MOD ltac:(unfold UINT32_MOD; lia)) as Hdm.
    lia.
  - rewrite closeBatch_eq.
    destruct (negb _); [exists k; exact Hk |]. destruct (paused s); [exists k; exact Hk |].
    destruct (noOpenBatch (batches s)) eqn:Hn; [exists k; exact Hk |].
    apply noOpenBatch_false in Hn as (bs & b & Hbs & Hcl).
    rewrite Hbs in Hk |- *. rewrite latest_index, lookup_latest, insert_latest.
    cbn [fst batches payments set_batches].
    rewrite batchesTotal_snoc in Hk |- *. exists k. exact Hk.
  - rewrite requestBatchTotalDecryption_eq. repeat split_test; exists k; exact Hk.
  - rewrite myCallback_eq. cbn zeta. repeat split_test; exists k; exact Hk.
Qed.

(** X15. The batches account for the ledger.  With a homomorphic FHE
    library, in every state reached from deployment the plaintext
    aggregates of all batches, open or closed, and the plaintext amounts of
    all entries of the ledger have the same sum modulo 2^32: no payment is
    counted twice or lost, whatever the interleaving of the calls. *)
Theorem batches_account_for_ledger (decrypt : Z -> Z) (Hc : FHE_correct decrypt)
    (s : Storage) :
  reachable s ->
  batchesTotal decrypt (batches s) mod UINT32_MOD
    = ledgerTotal decrypt (payments s) mod UINT32_MOD.
Proof.
  intros (deploy & txs & ->).
  assert (Hzero : decrypt (FHE_asEuint32 0) = 0)
    by (apply decrypt_asEuint32; unfold is_uint32, UINT32_MOD; lia).
  assert (Hbal : balanced decrypt (run (constructor deploy) txs)).
  { assert (Hgen : forall s0, balanced decrypt s0 -> balanced decrypt (run s0 txs)).
    { induction txs as [| tx rest IH]; intros s0 H0; [exact H0 |].
      rewrite run_cons. apply IH. apply step_balanced; assumption. }
    apply Hgen. exists 0. reflexivity. }
  destruct Hbal as [k Hk].
  replace (batchesTotal decrypt (batches (run (constructor deploy) txs)))
    with (ledgerTotal decrypt (payments (run (constructor deploy) txs)) + k * UINT32_MOD)
    by lia.
  apply Z_mod_plus_full.
Qed.

(** *** Changing the cooldown *)

(** X16. A change of the cooldown binds at once and looks back: after the
    owner's [setCooldownSeconds n], a provider's [submitPayment] is judged
    by [n] against the time of its last submission, whatever cooldown was in
    force then.  It succeeds from [lastSubmissionTime + n] on and is
    rejected, the storage unchanged, before. *)
Theorem cooldown_change_is_immediate (s : Storage) (envO env : Env) (n v : Z) :
  msg_sender envO = owner s ->
  readBool (providers s) (msg_sender env) = true ->
  paused s = false ->
  noOpenBatch (batches s) = false ->
  let s1 := step s (envO, SetCooldownSeconds n) in
  let last := readUint (lastSubmissionTime s) (msg_sender env) in
  (last + n <= block_timestamp env -> block_timestamp env <= UINT256_MAX ->
   succeeds (call s1 (env, SubmitPayment v)).2 = true) /\
  (block_timestamp env < last + n ->
   exists f, call s1 (env, SubmitPayment v) = (s1, Reverted f) /\
     (last + n <= UINT256_MAX -> f = Custom CooldownActive)).
Proof.
  intros Ho Hprov Hp Hopen s1 last. apply Z.eqb_eq in Ho.
  assert (Hs1 : s1 = set_cooldownSeconds n s)
    by (subst s1; unfold step; rewrite setCooldownSeconds_eq, Ho; reflexivity).
  destruct (cooldown_gate_on_submit (set_cooldownSeconds n s) env v Hprov Hp Hopen)
    as [Hreject Haccept].
  cbn [cooldownSeconds set_cooldownSeconds lastSubmissionTime] in Hreject, Haccept.
  rewrite Hs1. fold last in Hreject, Haccept. split.
  - intros Hge Hmax. destruct Haccept as (log & Hlog & _); [lia | exact Hmax |].
    rewrite Hlog. reflexivity.
  - intros Hlt. apply Hreject. lia.
Qed.

(** *** Opening a batch *)


(** *** Decoding the cleartexts *)

Lemma big_endian_bound (l : list Byte.byte) (acc : Z) :
  0 <= acc ->
  0 <= fold_left (fun a b => a * 256 + Z.of_N (Byte.to_N b)) l acc
    < (acc + 1) * 256 ^ Z.of_nat (length l).
Proof.
  revert acc. induction l as [| b l IH]; intros acc Hacc.
  - cbn. lia.
  - cbn [fold_left length].
    pose proof (Byte.to_N_bounded b) as Hb.
    assert (Hb' : 0 <= Z.of_N (Byte.to_N b) < 256) by lia.
    specialize (IH (acc * 256 + Z.of_N (Byte.to_N b)) ltac:(lia)).
    rewrite Nat2Z.inj_succ, Z.pow_succ_r by lia.
    assert (Hpow : 0 < 256 ^ Z.of_nat (length l)) by (apply Z.pow_pos_nonneg; lia).
    nia.
Qed.

(** X18. What the callback reads from the cleartexts.  Cleartexts shorter
    than 32 bytes do not decode, and the callback then never marks a request
    processed; what decodes is a [uint256] read from the first 32 bytes
    alone, so bytes after them change nothing. *)
Theorem cleartexts_decode_to_uint256 :
  (forall data n, abi_decode_uint256 data = Some n -> is_uint256 n) /\
  (forall data, (length data < 32)%nat <-> abi_decode_uint256 data = None) /\
  (forall data extra, (32 <= length data)%nat ->
     abi_decode_uint256 (data ++ extra) = abi_decode_uint256 data) /\
  (forall s env r c p, (length c < 32)%nat ->
     succeeds (call s (env, MyCallback r c p)).2 = false /\
     step s (env, MyCallback r c p) = s).
Proof.
  assert (Hnone : forall data, (length data < 32)%nat <-> abi_decode_uint256 data = None).
  { intros data. unfold abi_decode_uint256.
    destruct (length data <? 32)%nat eqn:E.
    - apply Nat.ltb_lt in E. split; auto.
    - apply Nat.ltb_ge in E. split; [lia | discriminate]. }
  split; [| split; [exact Hnone | split]].
  - intros data n. unfold abi_decode_uint256.
    destruct (length data <? 32)%nat eqn:E; [discriminate |].
    apply Nat.ltb_ge in E. intros [= <-].
    pose proof (big_endian_bound (take 32 data) 0 ltac:(lia)) as Hb.
    rewrite length_take, Nat.min_l in Hb by exact E.
    unfold is_uint256, UINT256_MAX.
    change (256 ^ Z.of_nat 32) with (2 ^ 256) in Hb. lia.
  - intros data extra Hlen. unfold abi_decode_uint256.
    rewrite length_app.
    replace (length data + length extra <? 32)%nat with false
      by (symmetry; apply Nat.ltb_ge; lia).
    replace (length data <? 32)%nat with false by (symmetry; apply Nat.ltb_ge; lia).
    rewrite take_app_le by exact Hlen. reflexivity.
  - intros s env r c p Hlen. apply Hnone in Hlen.
    unfold step. rewrite myCallback_eq. cbn zeta. rewrite Hlen.
    repeat split_test; auto.
Qed.

End Properties.

(** ** The contract on concrete traces

    The collaborators are the plaintext instance; address 1 deploys the
    contract and owns it, address 2 is made a provider, address 3 is a
    bystander. *)

Section Concrete.
#[local] Existing Instance plainFHE.

Lemma plainFHE_correct : FHE_correct (fun c => c).
Proof.
  split.
  - intros v Hv. cbn. apply Z.mod_small. exact Hv.
  - intros a b. reflexivity.
Qed.

Example scenario_total_25 :
  batches requested = [{| Batch_id := 0; totalEncryptedAmount := 25; closed := true |}] /\
  call requested (at_ 9 400, MyCallback 7 (word 25) [Byte.x01]) =
    (set_decryptionContexts
       (<[7 := {| batchId := 0;
                  stateHash := _hashCiphertexts [25];
                  processed := true |}]> (decryptionContexts requested)) requested,
     Success [DecryptionCompleted 7 0 25]).
Proof. split; vm_compute; reflexivity. Qed.

Example scenario_errors :
  (call withProvider (at_ 3 100, SubmitPayment 10)).2 = Reverted (Custom NotProvider) /\
  (call withProvider (at_ 2 100, SubmitPayment 10)).2
    = Reverted (Custom BatchClosedOrNonexistent) /\
  (call (run withProvider [(at_ 2 100, OpenBatch)]) (at_ 3 200, RequestBatchTotalDecryption 0)).2
    = Reverted (Custom InvalidBatch).
Proof. repeat split; vm_compute; reflexivity. Qed.

Example aggregate_wraps :
  batches (run withProvider
    [ (at_ 2 100, OpenBatch);
      (at_ 2 160, SubmitPayment (UINT32_MOD - 1));
      (at_ 2 220, SubmitPayment 2) ])
  = [{| Batch_id := 0; totalEncryptedAmount := 1; closed := false |}].
Proof. vm_compute. reflexivity. Qed.

Lemma batch_aggregate_is_sum_witness :
  (call withProvider (at_ 2 100, OpenBatch)).2 = Success [BatchOpened 0] /\
  Forall wellTyped mixedTrace /\
  contributions 0 (step withProvider (at_ 2 100, OpenBatch)) mixedTrace = [10; 15] /\
  exists b,
    batches (run (step withProvider (at_ 2 100, OpenBatch)) mixedTrace) !! 0%nat = Some b /\
    totalEncryptedAmount b = 25.
Proof.
  assert (Hok : (call withProvider (at_ 2 100, OpenBatch)).2 = Success [BatchOpened 0])
    by (vm_compute; reflexivity).
  assert (Hv : Forall wellTyped mixedTrace)
    by (repeat constructor; cbn; lia).
  split; [exact Hok |]. split; [exact Hv |]. split; [vm_compute; reflexivity |].
  destruct (batch_aggregate_is_sum (fun c => c) plainFHE_correct withProvider
              (at_ 2 100) [BatchOpened 0] mixedTrace Hok Hv) as (b & Hb & Hd & _).
  exists b. split; [exact Hb |]. rewrite Hd. vm_compute. reflexivity.
Defined.

Lemma callback_replay_rejected_witness :
  processed (readContext (decryptionContexts finalized) 7) = true /\
  call finalized (at_ 9 500, MyCallback 7 (word 99) [Byte.x01])
    = (finalized, Reverted (Custom ReplayAttempt)).
Proof.
  assert (Hp : processed (readContext (decryptionContexts finalized) 7) = true)
    by (vm_compute; reflexivity).
  split; [exact Hp |].
  apply (proj1 callback_replay_rejected finalized (at_ 9 500) 7 (word 99) [Byte.x01] Hp).
Defined.

Lemma callback_state_binding_witness :
  decryptionContexts tampered !! 7 =
    Some {| batchId := 0; stateHash := _hashCiphertexts [25]; processed := false |} /\
  closedBatchAt (batches tampered) 0
    {| Batch_id := 0; totalEncryptedAmount := 26; closed := true |} /\
  _hashCiphertexts [26] <> _hashCiphertexts [25] /\
  call tampered (at_ 9 400, MyCallback 7 (word 25) [Byte.x01])
    = (tampered, Reverted (Custom StateMismatch)).
Proof.
  assert (Hctx : decryptionContexts tampered !! 7 =
    Some {| batchId := 0; stateHash := _hashCiphertexts [25]; processed := false |})
    by (vm_compute; reflexivity).
  assert (Hb : closedBatchAt (batches tampered) 0
    {| Batch_id := 0; totalEncryptedAmount := 26; closed := true |})
    by (repeat split; cbn; lia).
  assert (Hne : _hashCiphertexts [26] <> _hashCiphertexts [25])
    by (vm_compute; discriminate).
  split; [exact Hctx |]. split; [exact Hb |]. split; [exact Hne |].
  apply (proj1 (proj1 callback_state_binding tampered (at_ 9 400) 7 (word 25)
           [Byte.x01] _ _ Hctx eq_refl Hb)).
  exact Hne.
Defined.

Lemma request_decryption_checks_batch_witness :
  paused sealed = false /\
  readUint (lastDecryptionRequestTime sealed) 3 + cooldownSeconds sealed <= 300 /\
  closedBatchAt (batches sealed) 0
    {| Batch_id := 0; totalEncryptedAmount := 25; closed := true |} /\
  (call sealed ({| msg_sender := 3; block_timestamp := 300; oracle_requestId := 7 |},
                RequestBatchTotalDecryption 0)).2
    = Success [DecryptionRequested 7 0 (keccak256_abi_encode [25] this)].
Proof.
  assert (Hb : closedBatchAt (batches sealed) 0
    {| Batch_id := 0; totalEncryptedAmount := 25; closed := true |})
    by (repeat split; cbn; lia).
  split; [reflexivity |]. split; [vm_compute; discriminate |]. split; [exact Hb |].
  rewrite (proj2 (request_decryption_checks_batch sealed
             {| msg_sender := 3; block_timestamp := 300; oracle_requestId := 7 |} 0
             ltac:(lia) eq_refl ltac:(vm_compute; discriminate)
             ltac:(vm_compute; discriminate)) _ Hb).
  reflexivity.
Defined.

Lemma closed_batch_immutable_witness :
  batches requested !! 0%nat =
    Some {| Batch_id := 0; totalEncryptedAmount := 25; closed := true |} /\
  batches (run requested laterTrace) !! 0%nat =
    Some {| Batch_id := 0; totalEncryptedAmount := 25; closed := true |} /\
  fingerprint (run requested laterTrace) 0 = fingerprint requested 0.
Proof.
  assert (Hb : batches requested !! 0%nat =
    Some {| Batch_id := 0; totalEncryptedAmount := 25; closed := true |})
    by (vm_compute; reflexivity).
  split; [exact Hb |].
  apply (proj1 closed_batch_immutable requested laterTrace 0%nat _ Hb eq_refl).
Defined.

Lemma one_open_batch_when_closed_before_open_witness :
  closeBeforeOpen (constructor (at_ 1 0)) (oneBatch ++ [(at_ 2 400, OpenBatch)]) = true /\
  atMostOneOpen (batches (run (constructor (at_ 1 0)) (oneBatch ++ [(at_ 2 400, OpenBatch)]))).
Proof.
  assert (Hd : closeBeforeOpen (constructor (at_ 1 0))
                 (oneBatch ++ [(at_ 2 400, OpenBatch)]) = true)
    by (vm_compute; reflexivity).
  split; [exact Hd |].
  apply (one_open_batch_when_closed_before_open (at_ 1 0) _ Hd).
Defined.

Lemma callback_unknown_request_witness :
  decryptionContexts genesis !! 7 = None /\
  (~ exists b, closedBatchAt (batches genesis) 0 b) /\
  call genesis (at_ 9 50, MyCallback 7 (word 25) [Byte.x01])
    = (genesis, Reverted (Custom InvalidBatch)).
Proof.
  assert (Hno : ~ exists b, closedBatchAt (batches genesis) 0 b)
    by (intros (b & _ & Hb & _); discriminate Hb).
  split; [reflexivity |]. split; [exact Hno |].
  apply (proj1 (callback_unknown_request genesis (at_ 9 50) 7 (word 25) [Byte.x01] eq_refl)).
  exact Hno.
Defined.

Lemma paused_blocks_gated_calls_witness :
  paused halted = true /\
  call halted (at_ 2 400, SubmitPayment 5) = (halted, Reverted (Custom Paused)) /\
  call halted (at_ 3 400, RequestBatchTotalDecryption 0) = (halted, Reverted (Custom Paused)).
Proof.
  assert (Hp : paused halted = true) by reflexivity.
  split; [exact Hp |]. split.
  - apply (proj1 (paused_blocks_gated_calls halted Hp) (at_ 2 400) (SubmitPayment 5) eq_refl).
  - apply (proj1 (proj2 (paused_blocks_gated_calls halted Hp))).
Defined.

Lemma submit_cooldown_witness :
  readBool (providers paidOnce) 2 = true /\
  paused paidOnce = false /\
  noOpenBatch (batches paidOnce) = false /\
  readUint (lastSubmissionTime paidOnce) 2 = 160 /\
  cooldownSeconds paidOnce = 60 /\
  call paidOnce (at_ 2 219, SubmitPayment 15) = (paidOnce, Reverted (Custom CooldownActive)) /\
  (exists log, (call paidOnce (at_ 2 220, SubmitPayment 15)).2 = Success log /\
     readUint (lastSubmissionTime (step paidOnce (at_ 2 220, SubmitPayment 15))) 2 = 220).
Proof.
  assert (Hprov : readBool (providers paidOnce) 2 = true) by (vm_compute; reflexivity).
  assert (Hp : paused paidOnce = false) by reflexivity.
  assert (Hopen : noOpenBatch (batches paidOnce) = false) by (vm_compute; reflexivity).
  split; [exact Hprov |]. split; [exact Hp |]. split; [exact Hopen |].
  split; [vm_compute; reflexivity |]. split; [reflexivity |]. split.
  - destruct (proj1 (proj1 submit_cooldown paidOnce (at_ 2 219) 15 Hprov Hp Hopen))
      as (f & Hcall & Hf); [vm_compute; reflexivity |].
    rewrite Hcall, Hf; [reflexivity | vm_compute; discriminate].
  - apply (proj2 (proj1 submit_cooldown paidOnce (at_ 2 220) 15 Hprov Hp Hopen));
      vm_compute; discriminate.
Defined.

Lemma orphaned_batch_stays_open_witness :
  batches firstOpen !! 0%nat =
    Some {| Batch_id := 0; totalEncryptedAmount := 0; closed := false |} /\
  (call firstOpen (at_ 2 200, OpenBatch)).2 = Success [BatchOpened 1] /\
  batches (run (step firstOpen (at_ 2 200, OpenBatch)) afterOrphan) !! 0%nat =
    Some {| Batch_id := 0; totalEncryptedAmount := 0; closed := false |}.
Proof.
  assert (Hb : batches firstOpen !! 0%nat =
    Some {| Batch_id := 0; totalEncryptedAmount := 0; closed := false |})
    by (vm_compute; reflexivity).
  assert (Hok : (call firstOpen (at_ 2 200, OpenBatch)).2 = Success [BatchOpened 1])
    by (vm_compute; reflexivity).
  split; [exact Hb |]. split; [exact Hok |].
  apply (proj1 orphaned_batch_stays_open firstOpen (at_ 2 200) _ 0%nat _ afterOrphan
           Hb eq_refl Hok).
Defined.

Example twoOpens_breaks_discipline : closeBeforeOpen genesis twoOpens = false.
Proof. vm_compute. reflexivity. Qed.

(** *** Where the specification and the contract part *)

(** C4: a request for a batch that does not exist, made 10 seconds after
    the caller's previous request, is turned away by the cooldown gate. *)
Lemma request_invalid_batch_counterexample :
  (~ exists b, closedBatchAt (batches requested) 5 b) /\
  call requested (at_ 3 310, RequestBatchTotalDecryption 5)
    = (requested, Reverted (Custom CooldownActive)) /\
  (call requested (at_ 3 310, RequestBatchTotalDecryption 5)).2
    <> Reverted (Custom InvalidBatch).
Proof.
  split; [intros (b & _ & Hb & _); discriminate Hb |].
  split; [vm_compute; reflexivity | vm_compute; discriminate].
Qed.

(** C6: two [openBatch] in a row leave two open batches. *)
Lemma two_open_batches_counterexample :
  reachable (run genesis twoOpens) /\
  batches (run genesis twoOpens) =
    [ {| Batch_id := 0; totalEncryptedAmount := 0; closed := false |};
      {| Batch_id := 1; totalEncryptedAmount := 0; closed := false |} ] /\
  ~ atMostOneOpen (batches (run genesis twoOpens)).
Proof.
  split; [exists (at_ 1 0), twoOpens; reflexivity |].
  split; [vm_compute; reflexivity |].
  intros Hone.
  specialize (Hone 0%nat 1%nat _ _ eq_refl eq_refl eq_refl eq_refl). discriminate Hone.
Qed.

(** C7: a callback for a request id that was never issued reverts with
    [InvalidBatch] before any batch is closed and with [StateMismatch]
    after; neither is the specification's [UnknownRequest]. *)
Lemma unknown_request_counterexample :
  decryptionContexts genesis !! 99 = None /\
  call genesis (at_ 9 50, MyCallback 99 (word 25) [Byte.x01])
    = (genesis, Reverted (Custom InvalidBatch)) /\
  decryptionContexts requested !! 99 = None /\
  call requested (at_ 9 400, MyCallback 99 (word 25) [Byte.x01])
    = (requested, Reverted (Custom StateMismatch)) /\
  specError InvalidBatch <> Spec.UnknownRequest /\
  specError StateMismatch <> Spec.UnknownRequest.
Proof.
  repeat split; try (vm_compute; reflexivity); discriminate.
Qed.

(** C8: while the contract is paused the callback still completes a
    decryption, and a caller who is not a provider gets [NotProvider]. *)
Lemma paused_callback_counterexample :
  paused halted = true /\
  (call halted (at_ 9 400, MyCallback 7 (word 25) [Byte.x01])).2
    = Success [DecryptionCompleted 7 0 25] /\
  processed (readContext (decryptionContexts halted) 7) = false /\
  processed (readContext (decryptionContexts
    (step halted (at_ 9 400, MyCallback 7 (word 25) [Byte.x01]))) 7) = true /\
  (call halted (at_ 3 400, OpenBatch)).2 = Reverted (Custom NotProvider).
Proof.
  repeat split; vm_compute; reflexivity.
Qed.

(** C9: with the cooldown raised to the largest [uint256], a second payment
    two seconds after the first is rejected by the overflow check of
    [lastSubmissionTime + cooldownSeconds], not with [CooldownActive]; and
    with an open batch that is not the latest one, a payment after the
    cooldown is rejected with [BatchClosedOrNonexistent]. *)
Lemma submit_cooldown_counterexample :
  (readBool (providers frozen) 2 = true /\ paused frozen = false /\
   noOpenBatch (batches frozen) = false /\
   1062 - readUint (lastSubmissionTime frozen) 2 < cooldownSeconds frozen /\
   call frozen (at_ 2 1062, SubmitPayment 5) = (frozen, Reverted (Panic 17))) /\
  (readBool (providers orphaned) 2 = true /\ paused orphaned = false /\
   batches orphaned !! 0%nat =
     Some {| Batch_id := 0; totalEncryptedAmount := 0; closed := false |} /\
   cooldownSeconds orphaned <= 400 - readUint (lastSubmissionTime orphaned) 2 /\
   call orphaned (at_ 2 400, SubmitPayment 5)
     = (orphaned, Reverted (Custom BatchClosedOrNonexistent))).
Proof.
  repeat split; try (vm_compute; reflexivity); vm_compute; discriminate.
Qed.

(** C10: a request against the orphaned batch 0, made 10 seconds after the
    caller's request for batch 1, is turned away by the cooldown gate. *)
Lemma orphan_request_counterexample :
  batches orphaned =
    [ {| Batch_id := 0; totalEncryptedAmount := 0; closed := false |};
      {| Batch_id := 1; totalEncryptedAmount := 0; closed := true |} ] /\
  call orphaned (at_ 3 310, RequestBatchTotalDecryption 0)
    = (orphaned, Reverted (Custom CooldownActive)) /\
  (call orphaned (at_ 3 310, RequestBatchTotalDecryption 0)).2
    <> Reverted (Custom InvalidBatch).
Proof.
  split; [vm_compute; reflexivity |].
  split; [vm_compute; reflexivity | vm_compute; discriminate].
Qed.

(** *** The further properties on concrete traces *)

Lemma only_owner_administers_witness :
  Forall (fun tx => msg_sender tx.1 <> owner withProvider) (drop 1 oneBatch) /\
  owner (run withProvider (drop 1 oneBatch)) = 1 /\
  providers (run withProvider (drop 1 oneBatch)) = providers withProvider /\
  cooldownSeconds (run withProvider (drop 1 oneBatch)) = 60.
Proof.
  assert (Hall : Forall (fun tx => msg_sender tx.1 <> owner withProvider) (drop 1 oneBatch))
    by (repeat constructor; vm_compute; discriminate).
  split; [exact Hall |].
  destruct (only_owner_administers withProvider (drop 1 oneBatch) Hall)
    as (Ho & Hpr & _ & Hcd).
  rewrite Ho, Hpr, Hcd. repeat split; reflexivity.
Defined.

Lemma ownership_handover_witness :
  (call withProvider (at_ 1 20, TransferOwnership 5)).2
    = Success [OwnershipTransferred 1 5] /\
  call (step withProvider (at_ 1 20, TransferOwnership 5)) (at_ 1 30, SetPaused true)
    = (step withProvider (at_ 1 20, TransferOwnership 5), Reverted (Custom NotOwner)) /\
  succeeds (call (step withProvider (at_ 1 20, TransferOwnership 5))
              (at_ 5 30, SetPaused true)).2 = true.
Proof.
  assert (Hok : (call withProvider (at_ 1 20, TransferOwnership 5)).2
                  = Success [OwnershipTransferred 1 5]) by (vm_compute; reflexivity).
  split; [exact Hok |].
  destruct (ownership_handover withProvider (at_ 1 20) 5 _ Hok) as (_ & _ & Hnew & Hold).
  split.
  - apply (Hold (at_ 1 30) (SetPaused true)); [reflexivity | reflexivity | discriminate].
  - apply (Hnew (at_ 5 30) (SetPaused true)); reflexivity.
Defined.

Lemma provider_registry_witness :
  msg_sender (at_ 1 10) = owner genesis /\
  readBool (providers (step genesis (at_ 1 10, AddProvider 2))) 2 = true /\
  readBool (providers (step genesis (at_ 1 10, RemoveProvider 2))) 2 = false.
Proof.
  split; [reflexivity |].
  destruct (provider_registry genesis (at_ 1 10) 2 eq_refl) as (Ha & Hr & _).
  split; [exact Ha | exact Hr].
Defined.

Lemma removed_provider_locked_out_witness :
  readBool (providers dismissed) 2 = false /\
  Forall (fun tx => admits 2 tx = false) withoutReadmission /\
  call (run dismissed withoutReadmission) (at_ 2 900, OpenBatch)
    = (run dismissed withoutReadmission, Reverted (Custom NotProvider)).
Proof.
  assert (Hp : readBool (providers dismissed) 2 = false) by (vm_compute; reflexivity).
  assert (Hall : Forall (fun tx => admits 2 tx = false) withoutReadmission)
    by (repeat constructor).
  split; [exact Hp |]. split; [exact Hall |].
  apply (proj2 (removed_provider_locked_out dismissed withoutReadmission 2 Hp Hall)
           (at_ 2 900) OpenBatch); reflexivity.
Defined.

Lemma pause_is_lossless_witness :
  paused paidOnce = false /\
  Forall (fun tx => pauseGated tx.2 = true) whilePaused /\
  run paidOnce ((at_ 1 300, SetPaused true) :: whilePaused ++ [(at_ 1 900, SetPaused false)])
    = paidOnce.
Proof.
  assert (Hall : Forall (fun tx => pauseGated tx.2 = true) whilePaused)
    by (repeat constructor).
  split; [reflexivity |]. split; [exact Hall |].
  apply (pause_is_lossless paidOnce (at_ 1 300) (at_ 1 900) whilePaused);
    [reflexivity | reflexivity | reflexivity | exact Hall].
Defined.

Lemma fresh_contract_admits_admin_only_witness :
  succeeds (call (constructor (at_ 1 0)) (at_ 1 10, AddProvider 2)).2 = true /\
  adminCall (AddProvider 2) = true /\ msg_sender (at_ 1 10) = msg_sender (at_ 1 0).
Proof.
  assert (Hok : succeeds (call (constructor (at_ 1 0)) (at_ 1 10, AddProvider 2)).2 = true)
    by (vm_compute; reflexivity).
  split; [exact Hok |].
  apply (fresh_contract_admits_admin_only (at_ 1 0) (at_ 1 10) (AddProvider 2) Hok).
Defined.

Lemma ledger_append_only_witness :
  payments paidOnce !! 0%nat =
    Some {| provider := 2; encryptedAmount := 10; submissionTimestamp := 160 |} /\
  payments (run paidOnce mixedTrace) !! 0%nat =
    Some {| provider := 2; encryptedAmount := 10; submissionTimestamp := 160 |} /\
  ledgerEntries paidOnce mixedTrace =
    [ {| provider := 2; encryptedAmount := 15; submissionTimestamp := 200 |};
      {| provider := 2; encryptedAmount := 1000; submissionTimestamp := 400 |} ].
Proof.
  assert (Hp : payments paidOnce !! 0%nat =
    Some {| provider := 2; encryptedAmount := 10; submissionTimestamp := 160 |})
    by (vm_compute; reflexivity).
  split; [exact Hp |]. split; [| vm_compute; reflexivity].
  apply (proj1 (proj2 (ledger_append_only paidOnce mixedTrace)) 0%nat _ Hp).
Defined.

Lemma payment_event_names_entry_witness :
  (call paidOnce (at_ 2 220, SubmitPayment 15)).2
    = Success [PaymentSubmitted 1 0 2 15] /\
  payments (step paidOnce (at_ 2 220, SubmitPayment 15)) !! 1%nat =
    Some {| provider := 2; encryptedAmount := 15; submissionTimestamp := 220 |}.
Proof.
  assert (Hok : (call paidOnce (at_ 2 220, SubmitPayment 15)).2
                  = Success [PaymentSubmitted 1 0 2 15]) by (vm_compute; reflexivity).
  split; [exact Hok |].
  destruct (payment_event_names_entry paidOnce (at_ 2 220) 15 _ Hok)
    as (b & b' & _ & _ & _ & _ & Hentry & _).
  exact Hentry.
Defined.

Lemma batch_id_is_position_witness :
  reachable (run genesis history) /\
  batches (run genesis history) !! 1%nat =
    Some {| Batch_id := 1; totalEncryptedAmount := 1000; closed := false |} /\
  Batch_id {| Batch_id := 1; totalEncryptedAmount := 1000; closed := false |} = Z.of_nat 1.
Proof.
  assert (Hr : reachable (run genesis history))
    by (exists (at_ 1 0), history; reflexivity).
  assert (Hb : batches (run genesis history) !! 1%nat =
    Some {| Batch_id := 1; totalEncryptedAmount := 1000; closed := false |})
    by (vm_compute; reflexivity).
  split; [exact Hr |]. split; [exact Hb |].
  apply (proj1 batch_id_is_position (run genesis history) Hr 1%nat _ Hb).
Defined.

Lemma stored_contexts_stay_bound_witness :
  reachable requested /\
  decryptionContexts requested !! 7 =
    Some {| batchId := 0; stateHash := _hashCiphertexts [25]; processed := false |} /\
  call requested (at_ 9 400, MyCallback 7 (word 25) [Byte.x02])
    = (requested, Reverted (Custom InvalidProof)) /\
  call requested (at_ 9 400, MyCallback 7 [] [Byte.x01])
    = (requested, Reverted DecodeFailure).
Proof.
  assert (Hr : reachable requested) by (exists (at_ 1 0), oneBatch; reflexivity).
  assert (Hctx : decryptionContexts requested !! 7 =
    Some {| batchId := 0; stateHash := _hashCiphertexts [25]; processed := false |})
    by (vm_compute; reflexivity).
  split; [exact Hr |]. split; [exact Hctx |].
  destruct (stored_contexts_stay_bound requested Hr) as [_ Hcb].
  split.
  - rewrite (Hcb (at_ 9 400) 7 (word 25) [Byte.x02] _ Hctx eq_refl). reflexivity.
  - rewrite (Hcb (at_ 9 400) 7 [] [Byte.x01] _ Hctx eq_refl). reflexivity.
Defined.

Lemma context_fixed_unless_reissued_witness :
  decryptionContexts finalized !! 7 =
    Some {| batchId := 0; stateHash := _hashCiphertexts [25]; processed := true |} /\
  Forall (fun tx => reissues 7 tx = false) laterTrace /\
  call (run finalized laterTrace) (at_ 9 900, MyCallback 7 (word 25) [Byte.x01])
    = (run finalized laterTrace, Reverted (Custom ReplayAttempt)).
Proof.
  assert (Hctx : decryptionContexts finalized !! 7 =
    Some {| batchId := 0; stateHash := _hashCiphertexts [25]; processed := true |})
    by (vm_compute; reflexivity).
  assert (Hall : Forall (fun tx => reissues 7 tx = false) laterTrace)
    by (repeat constructor).
  split; [exact Hctx |]. split; [exact Hall |].
  destruct (proj1 context_fixed_unless_reissued finalized laterTrace 7 _ Hctx Hall)
    as (ctx' & _ & _ & _ & Hp).
  apply (proj2 (Hp eq_refl)).
Defined.

Lemma cooldown_clocks_are_personal_witness :
  Forall (fun tx => submissionBy 3 tx = false) laterTrace /\
  Forall (fun tx => requestBy 3 tx = false) laterTrace /\
  readUint (lastDecryptionRequestTime requested) 3 = 300 /\
  readUint (lastDecryptionRequestTime (run requested laterTrace)) 3 = 300 /\
  readUint (lastSubmissionTime (run requested laterTrace)) 3 = 0.
Proof.
  assert (Hs : Forall (fun tx => submissionBy 3 tx = false) laterTrace)
    by (repeat constructor).
  assert (Hr : Forall (fun tx => requestBy 3 tx = false) laterTrace)
    by (repeat constructor).
  split; [exact Hs |]. split; [exact Hr |]. split; [vm_compute; reflexivity |].
  destruct (cooldown_clocks_are_personal requested laterTrace 3) as [Hsub Hreq].
  rewrite (Hsub Hs), (Hreq Hr). split; vm_compute; reflexivity.
Defined.

Lemma close_batch_lifecycle_witness :
  (call withProvider (at_ 2 100, OpenBatch)).2 = Success [BatchOpened 0] /\
  readBool (providers (step withProvider (at_ 2 100, OpenBatch))) 2 = true /\
  (call (step withProvider (at_ 2 100, OpenBatch)) (at_ 2 100, CloseBatch)).2
    = Success [BatchClosed 0 0].
Proof.
  assert (Hok : (call withProvider (at_ 2 100, OpenBatch)).2 = Success [BatchOpened 0])
    by (vm_compute; reflexivity).
  assert (Hprov : readBool (providers (step withProvider (at_ 2 100, OpenBatch))) 2 = true)
    by (vm_compute; reflexivity).
  split; [exact Hok |]. split; [exact Hprov |].
  destruct (proj1 close_batch_lifecycle withProvider (at_ 2 100) (at_ 2 100) OpenBatch
              _ eq_refl Hok Hprov) as (b & Hb & Hclose & _).
  rewrite Hclose. vm_compute in Hb. injection Hb as <-. reflexivity.
Defined.

Lemma request_cooldown_witness :
  (call sealed ({| msg_sender := 3; block_timestamp := 300; oracle_requestId := 7 |},
                RequestBatchTotalDecryption 0)).2
    = Success [DecryptionRequested 7 0 (_hashCiphertexts [25])] /\
  call requested ({| msg_sender := 3; block_timestamp := 359; oracle_requestId := 8 |},
                  RequestBatchTotalDecryption 0)
    = (requested, Reverted (Custom CooldownActive)) /\
  succeeds (call requested
              ({| msg_sender := 3; block_timestamp := 360; oracle_requestId := 8 |},
               RequestBatchTotalDecryption 0)).2 = true.
Proof.
  assert (Hok : (call sealed
      ({| msg_sender := 3; block_timestamp := 300; oracle_requestId := 7 |},
       RequestBatchTotalDecryption 0)).2
    = Success [DecryptionRequested 7 0 (_hashCiphertexts [25])])
    by (vm_compute; reflexivity).
  split; [exact Hok |].
  pose proof (proj1 request_cooldown sealed
    {| msg_sender := 3; block_timestamp := 300; oracle_requestId := 7 |}) as Hthm.
  split.
  - destruct (proj1 (Hthm {| msg_sender := 3; block_timestamp := 359; oracle_requestId := 8 |}
                       0 0 _ Hok eq_refl)) as (f & Hcall & Hf);
      [vm_compute; reflexivity |].
    change (step sealed
      ({| msg_sender := 3; block_timestamp := 300; oracle_requestId := 7 |},
       RequestBatchTotalDecryption 0)) with requested in Hcall.
    rewrite Hcall, Hf; [reflexivity | vm_compute; discriminate].
  - apply (proj2 (Hthm {| msg_sender := 3; block_timestamp := 360; oracle_requestId := 8 |}
                    0 0 _ Hok eq_refl)).
    + vm_compute. discriminate.
    + vm_compute. discriminate.
    + lia.
    + exists {| Batch_id := 0; totalEncryptedAmount := 25; closed := true |}.
      repeat split; cbn; lia.
Defined.

Lemma batches_account_for_ledger_witness :
  reachable (run genesis history) /\
  batchesTotal (fun c => c) (batches (run genesis history)) = 1025 /\
  ledgerTotal (fun c => c) (payments (run genesis history)) = 1025 /\
  batchesTotal (fun c => c) (batches (run genesis history)) mod UINT32_MOD
    = ledgerTotal (fun c => c) (payments (run genesis history)) mod UINT32_MOD.
Proof.
  assert (Hr : reachable (run genesis history))
    by (exists (at_ 1 0), history; reflexivity).
  split; [exact Hr |]. split; [vm_compute; reflexivity |]. split; [vm_compute; reflexivity |].
  apply (batches_account_for_ledger (fun c => c) plainFHE_correct _ Hr).
Defined.

Lemma cooldown_change_is_immediate_witness :
  msg_sender (at_ 1 170) = owner paidOnce /\
  readBool (providers paidOnce) 2 = true /\
  noOpenBatch (batches paidOnce) = false /\
  readUint (lastSubmissionTime paidOnce) 2 + 10 <= 170 /\
  succeeds (call (step paidOnce (at_ 1 170, SetCooldownSeconds 10))
              (at_ 2 170, SubmitPayment 15)).2 = true /\
  (call paidOnce (at_ 2 170, SubmitPayment 15)).2 = Reverted (Custom CooldownActive).
Proof.
  assert (Hprov : readBool (providers paidOnce) 2 = true) by (vm_compute; reflexivity).
  assert (Hopen : noOpenBatch (batches paidOnce) = false) by (vm_compute; reflexivity).
  assert (Hge : readUint (lastSubmissionTime paidOnce) 2 + 10 <= 170)
    by (vm_compute; discriminate).
  split; [reflexivity |]. split; [exact Hprov |]. split; [exact Hopen |].
  split; [exact Hge |]. split; [| vm_compute; reflexivity].
  apply (proj1 (cooldown_change_is_immediate paidOnce (at_ 1 170) (at_ 2 170) 10 15
                  eq_refl Hprov eq_refl Hopen)); [exact Hge | vm_compute; discriminate].
Defined.


Lemma cleartexts_decode_to_uint256_witness :
  abi_decode_uint256 (word 25) = Some 25 /\
  is_uint256 25 /\
  abi_decode_uint256 (word 25 ++ [Byte.xff]) = Some 25 /\
  step requested (at_ 9 400, MyCallback 7 [Byte.x19] [Byte.x01]) = requested.
Proof.
  assert (Hd : abi_decode_uint256 (word 25) = Some 25) by (vm_compute; reflexivity).
  destruct cleartexts_decode_to_uint256 as (Hrange & _ & Htrail & Hshort).
  split; [exact Hd |]. split; [exact (Hrange _ _ Hd) |]. split.
  - rewrite (Htrail (word 25) [Byte.xff]); [exact Hd | vm_compute; lia].
  - apply (proj2 (Hshort requested (at_ 9 400) 7 [Byte.x19] [Byte.x01] ltac:(cbn; lia))).
Defined.

End Concrete.

